(** * Torsion-mesh conformer generation (ipython/well_conf_rdkit.ipynb)

    A shallow embedding of the three functions of the notebook's second cell,
    [get_separable_angle_list], [get_angle_mesh] and
    [conformers_by_change_torsions], of the cells that use them, and the
    properties of the angle schedules, the mesh and the bookkeeping store
    that follow from them.

    Modelling conventions.
    - An angle is a Python number: an [int], which is unbounded, or a
      [float], which is a binary64 number ([spec_float], with the operations
      of [SpecFloat] at precision 53).
    - The schedules are computed with numpy, taken in its version 2.  An
      array built from Python integers that fit in 64 bits has the type
      int64, and its sums wrap around; adding a Python integer that does not
      fit in 64 bits to such an array raises [OverflowError]; a float added
      to such an array gives float64 sums of the rounded integers; an empty
      list gives an empty float64 array.  What numpy does with other lists
      (an integer beyond 64 bits, integers mixed with floats) is not fixed
      here: it is the parameter [numpy_other].
    - A Python exception is the left summand of [result]; [try]/[except] is a
      [match] on it.
    - A Python [dict] is an association list in insertion order: assigning to
      a key that is present keeps the key's position, assigning to a new key
      appends it.
    - The conformer object is defined outside the notebook; its methods are
      the fields of the record [RDKitConf] over an abstract state. *)

From Stdlib Require Import String ZArith List Bool Arith Lia Sorted SpecFloat.
Import ListNotations.
Open Scope Z_scope.

(** ** Python primitives *)

Inductive exn : Type :=
| ZeroDivisionError
| IndexError
| KeyError
| OverflowError
| TypeError.

Definition result (A : Type) : Type := (exn + A)%type.

Definition ret {A} (a : A) : result A := inr a.

Definition raise {A} (e : exn) : result A := inl e.

Definition bind {A B} (c : result A) (k : A -> result B) : result B :=
  match c with
  | inl e => inl e
  | inr a => k a
  end.

Notation "x <- c ;; k" := (bind c (fun x => k))
  (at level 61, c at next level, right associativity).

(** [a // b] on Python integers. *)
Definition floordiv (a b : Z) : result Z :=
  if b =? 0 then raise ZeroDivisionError else ret (a / b).

(** [l[i]] for an index that is not negative. *)
Definition getitem {A} (l : list A) (i : nat) : result A :=
  match nth_error l i with
  | Some x => ret x
  | None => raise IndexError
  end.

(** [range(n)]: empty when [n <= 0]. *)
Definition range (n : Z) : list Z := map Z.of_nat (seq 0 (Z.to_nat n)).

(** [o or d] where [o] is a list or [None]: [None] and the empty list are
    both falsy. *)
Definition or_else {A} (o : option (list A)) (d : list A) : list A :=
  match o with
  | Some (x :: l) => x :: l
  | _ => d
  end.

(** ** Numbers *)

Definition float64 : Type := spec_float.

Definition float64_add : float64 -> float64 -> float64 := SFadd 53 1024.

(** The float nearest to an integer (ties to even): the conversion of an
    int64 to a float64, and of a Python integer to a float. *)
Definition float_of_int (z : Z) : float64 := binary_normalize 53 1024 z 0 false.

(** [0.] *)
Definition float_zero : float64 := S754_zero false.

Inductive pynum : Type :=
| PyInt (z : Z)
| PyFloat (f : float64).

Definition in_int64 (z : Z) : bool := (- 2 ^ 63 <=? z) && (z <? 2 ^ 63).

(** The int64 that an integer wraps to. *)
Definition wrap64 (z : Z) : Z := (z + 2 ^ 63) mod 2 ^ 64 - 2 ^ 63.

(** The elements of a list when all are Python integers that fit in 64
    bits. *)
Fixpoint all_int64 (l : list pynum) : option (list Z) :=
  match l with
  | [] => Some []
  | PyInt z :: l' =>
      if in_int64 z
      then match all_int64 l' with Some zs => Some (z :: zs) | None => None end
      else None
  | PyFloat _ :: _ => None
  end.

(** The elements of a list when all are floats. *)
Fixpoint all_float (l : list pynum) : option (list float64) :=
  match l with
  | [] => Some []
  | PyFloat f :: l' =>
      match all_float l' with Some fs => Some (f :: fs) | None => None end
  | PyInt _ :: _ => None
  end.

Inductive ndarray : Type :=
| Int64Array (zs : list Z)
| Float64Array (fs : list float64).

(** [np.array(l)], for the lists whose array type is fixed here. *)
Definition np_array (l : list pynum) : option ndarray :=
  match l with
  | [] => Some (Float64Array [])
  | _ :: _ =>
      match all_int64 l with
      | Some zs => Some (Int64Array zs)
      | None =>
          match all_float l with
          | Some fs => Some (Float64Array fs)
          | None => None
          end
      end
  end.

(** [r + a] for a Python number [r] and an array [a]; [None] where the
    outcome is not fixed here (an integer beyond 64 bits that is to be
    converted to a float). *)
Definition scalar_add (r : pynum) (a : ndarray) : option (result ndarray) :=
  match r, a with
  | PyInt z, Int64Array zs =>
      Some (if in_int64 z
            then ret (Int64Array (map (fun x => wrap64 (z + x)) zs))
            else raise OverflowError)
  | PyInt z, Float64Array fs =>
      if in_int64 z
      then Some (ret (Float64Array (map (float64_add (float_of_int z)) fs)))
      else None
  | PyFloat f, Int64Array zs =>
      Some (ret (Float64Array
                   (map (fun x => float64_add f (float_of_int x)) zs)))
  | PyFloat f, Float64Array fs =>
      Some (ret (Float64Array (map (float64_add f) fs)))
  end.

(** [a.tolist()] *)
Definition tolist (a : ndarray) : list pynum :=
  match a with
  | Int64Array zs => map PyInt zs
  | Float64Array fs => map PyFloat fs
  end.

(** ** Dictionaries *)

Class Hashable (K : Type) : Type := {
  key_eqb : K -> K -> bool;
  key_eqb_eq : forall a b, key_eqb a b = true <-> a = b
}.

#[export] Instance nat_hashable : Hashable nat :=
  {| key_eqb := Nat.eqb; key_eqb_eq := Nat.eqb_eq |}.

#[export] Instance string_hashable : Hashable string :=
  {| key_eqb := String.eqb; key_eqb_eq := String.eqb_eq |}.

Definition dict (K V : Type) : Type := list (K * V).

Fixpoint dict_get {K V} `{Hashable K} (d : dict K V) (k : K) : option V :=
  match d with
  | [] => None
  | (k', v) :: d' => if key_eqb k k' then Some v else dict_get d' k
  end.

(** [d[k]] as an expression. *)
Definition dict_getitem {K V} `{Hashable K} (d : dict K V) (k : K) : result V :=
  match dict_get d k with
  | Some v => ret v
  | None => raise KeyError
  end.

(** [d[k] = v]. *)
Fixpoint dict_setitem {K V} `{Hashable K} (d : dict K V) (k : K) (v : V)
  : dict K V :=
  match d with
  | [] => [(k, v)]
  | (k', v') :: d' =>
      if key_eqb k k' then (k', v) :: d' else (k', v') :: dict_setitem d' k v
  end.

Definition dict_keys {K V} (d : dict K V) : list K := map fst d.

Definition dict_values {K V} (d : dict K V) : list V := map snd d.

(** ** get_separable_angle_list *)

(** One element of [samplings]: "it can be either list or int"; a float
    passes the same [isinstance] test as an int.  (Any other value has no
    [tolist] and is not a sampling.) *)
Inductive sampling : Type :=
| SInt (n : Z)
| SFloat (f : float64)
| SList (l : list pynum).

(** [original_angles or len(samplings) * [0.]]. *)
Definition reference_angles (samplings : list sampling)
    (original_angles : option (list pynum)) : list pynum :=
  or_else original_angles (repeat (PyFloat float_zero) (length samplings)).

Section Schedules.

(** What [(r + np.array(l)).tolist()] is, or raises, for the lists and
    numbers whose treatment by numpy is not fixed above. *)
Variable numpy_other : pynum -> list pynum -> result (list pynum).

(** [(r + np.array(l)).tolist()] *)
Definition np_add (r : pynum) (l : list pynum) : result (list pynum) :=
  match np_array l with
  | Some a =>
      match scalar_add r a with
      | Some sum => a' <- sum ;; ret (tolist a')
      | None => numpy_other r l
      end
  | None => numpy_other r l
  end.

(** The body of the [for] loop: the list appended to [angle_list] for the
    element [angles] at position [ind].  With a float step count that is not
    zero, [360 // angles] is a float and [range(angles)] raises [TypeError],
    once [original_angles[ind]] was read. *)
Definition sample_dimension (original_angles : list pynum) (ind : nat)
    (angles : sampling) : result (list pynum) :=
  match angles with
  | SInt n =>
      match floordiv 360 n with
      | inl ZeroDivisionError =>
          r <- getitem original_angles ind ;;
          np_add r [PyInt 0]
      | inl e => raise e
      | inr step =>
          r <- getitem original_angles ind ;;
          np_add r (map (fun i => PyInt (step * i)) (range n))
      end
  | SFloat f =>
      if SFeqb f float_zero
      then r <- getitem original_angles ind ;;
           np_add r [PyInt 0]
      else r <- getitem original_angles ind ;;
           raise TypeError
  | SList l =>
      r <- getitem original_angles ind ;;
      np_add r l
  end.

(** [for ind, angles in enumerate(samplings)], from position [ind] on. *)
Fixpoint sample_loop (original_angles : list pynum) (ind : nat)
    (samplings : list sampling) (angle_list : list (list pynum))
  : result (list (list pynum)) :=
  match samplings with
  | [] => ret angle_list
  | angles :: rest =>
      a <- sample_dimension original_angles ind angles ;;
      sample_loop original_angles (S ind) rest (angle_list ++ [a])
  end.

Definition get_separable_angle_list (samplings : list sampling)
    (original_angles : option (list pynum)) : result (list (list pynum)) :=
  let original_angles := reference_angles samplings original_angles in
  sample_loop original_angles 0 samplings [].

End Schedules.

(** ** get_angle_mesh *)

(** [itertools.product]: every partial tuple is extended, at its end, by every
    element of the next pool. *)
Definition product_step {A} (partial : list (list A)) (pool : list A)
  : list (list A) :=
  flat_map (fun x => map (fun y => x ++ [y]) pool) partial.

Definition product {A} (pools : list (list A)) : list (list A) :=
  fold_left product_step pools [[]].

Definition get_angle_mesh {A} (angle_list : list (list A)) : list (list A) :=
  product angle_list.

(** ** conformers_by_change_torsions *)

(** Modelled from the spec: the class [RDKitConf] of [ccg.backend.rdk], whose
    methods the generator calls, is not in the notebook.  Its interface is
    taken as a parameter: [SetAllTorsionsDeg] changes the conformer's state,
    while [GetPositions], [HasCollidingAtoms] and [GetTorsionalModes] read it
    ("collision checking is a pure read"); the calls are taken to return.
    [positions] is what [GetPositions().tolist()] returns, one point per
    atom. *)
Record RDKitConf (conf positions : Type) : Type := {
  SetAllTorsionsDeg : conf -> list pynum -> conf;
  GetPositions : conf -> positions;
  HasCollidingAtoms : conf -> bool;
  GetTorsionalModes : conf -> list (list nat)
}.

Arguments SetAllTorsionsDeg {conf positions} _ _ _.
Arguments GetPositions {conf positions} _ _.
Arguments HasCollidingAtoms {conf positions} _ _.
Arguments GetTorsionalModes {conf positions} _ _.

(** The values stored under the keys of one bookkeeping entry. *)
Inductive pyvalue (positions : Type) : Type :=
| PyTuple (angles : list pynum)
| PyPositions (coords : positions)
| PyBool (b : bool)
| PyNone.

Arguments PyTuple {positions} _.
Arguments PyPositions {positions} _.
Arguments PyBool {positions} _.
Arguments PyNone {positions}.

Definition entry (positions : Type) : Type := dict string (pyvalue positions).

Definition bookkeeping (positions : Type) : Type := dict nat (entry positions).

Section Generator.

Context {conf positions : Type}.
Variable rdk : RDKitConf conf positions.

(** One iteration of [for ind, angles in enumerate(angle_mesh)]. *)
Definition change_torsions (on_the_fly_check : bool)
    (st : conf * bookkeeping positions) (ind : nat) (angles : list pynum)
  : result (conf * bookkeeping positions) :=
  let (c, bookkeep) := st in
  let c := SetAllTorsionsDeg rdk c angles in
  let bookkeep :=
    dict_setitem bookkeep ind
      [("angles"%string, PyTuple angles);
       ("coords"%string, PyPositions (GetPositions rdk c))] in
  let colliding :=
    if on_the_fly_check then PyBool (HasCollidingAtoms rdk c) else PyNone in
  e <- dict_getitem bookkeep ind ;;
  ret (c, dict_setitem bookkeep ind
            (dict_setitem e "colliding_atoms"%string colliding)).

Fixpoint mesh_loop (on_the_fly_check : bool) (ind : nat)
    (angle_mesh : list (list pynum)) (st : conf * bookkeeping positions)
  : result (conf * bookkeeping positions) :=
  match angle_mesh with
  | [] => ret st
  | angles :: rest =>
      st' <- change_torsions on_the_fly_check st ind angles ;;
      mesh_loop on_the_fly_check (S ind) rest st'
  end.

(** The function returns nothing; its effects are the final state of the
    conformer and of [bookkeep].  [torsions] is replaced by the conformer's
    own modes when it is [None] or empty, and is not used after that. *)
Definition conformers_by_change_torsions (c : conf)
    (angle_mesh : list (list pynum)) (bookkeep : bookkeeping positions)
    (torsions : option (list (list nat))) (on_the_fly_check : bool)
  : result (conf * bookkeeping positions) :=
  let torsions := or_else torsions (GetTorsionalModes rdk c) in
  mesh_loop on_the_fly_check 0 angle_mesh (c, bookkeep).

(** The notebook's generation cell, with its arguments as parameters: the
    schedules, their mesh, then the generator on an empty [bookkeep]. *)
Definition generate
    (numpy_other : pynum -> list pynum -> result (list pynum)) (c : conf)
    (samplings : list sampling) (original_angles : option (list pynum))
    (torsions : option (list (list nat))) (on_the_fly_check : bool)
  : result (conf * bookkeeping positions) :=
  angles_list <-
    get_separable_angle_list numpy_other samplings original_angles ;;
  conformers_by_change_torsions c (get_angle_mesh angles_list) []
    torsions on_the_fly_check.

(** The conformer's state once the first [k] tuples of a mesh were set. *)
Definition conf_after (c : conf) (angle_mesh : list (list pynum)) (k : nat)
  : conf :=
  fold_left (SetAllTorsionsDeg rdk) (firstn k angle_mesh) c.

End Generator.

(** ** Vocabulary of the properties *)

(** The sum of a reference angle and an integer: the exact sum when the
    reference is an integer, the float64 sum with the float nearest to the
    integer when it is a float. *)
Definition shift (r : pynum) (x : Z) : pynum :=
  match r with
  | PyInt z => PyInt (z + x)
  | PyFloat f => PyFloat (float64_add f (float_of_int x))
  end.

(** An integer reference and its sum with [x] fit in 64 bits; nothing is
    asked of a float reference. *)
Definition fits (r : pynum) (x : Z) : Prop :=
  match r with
  | PyInt z => in_int64 z = true /\ in_int64 (z + x) = true
  | PyFloat _ => True
  end.

Definition strictly_increasing (l : list Z) : Prop :=
  forall i j a b, (i < j)%nat ->
    nth_error l i = Some a -> nth_error l j = Some b -> a < b.


(** The number of points of the mesh over [pools]. *)
Fixpoint mesh_size {A} (pools : list (list A)) : nat :=
  match pools with
  | [] => 1
  | pool :: rest => (length pool * mesh_size rest)%nat
  end.

(** Row-major decoding of a position of the mesh: the first dimension has the
    largest stride, the last dimension has stride 1. *)
Fixpoint mesh_point (pools : list (list Z)) (i : nat) : list Z :=
  match pools with
  | [] => []
  | pool :: rest =>
      nth (i / mesh_size rest) pool 0 :: mesh_point rest (i mod mesh_size rest)
  end.

(** The Cartesian product by recursion on the dimensions, first dimension
    outermost. *)
Fixpoint cartesian {A} (pools : list (list A)) : list (list A) :=
  match pools with
  | [] => [[]]
  | pool :: rest => flat_map (fun x => map (cons x) (cartesian rest)) pool
  end.

(** The bookkeeping entry of a tuple, read on the conformer once the tuple
    was set. *)
Definition entry_of {conf positions} (rdk : RDKitConf conf positions)
    (on_the_fly_check : bool) (c : conf) (angles : list pynum)
  : entry positions :=
  [("angles"%string, PyTuple angles);
   ("coords"%string, PyPositions (GetPositions rdk c));
   ("colliding_atoms"%string,
     if on_the_fly_check then PyBool (HasCollidingAtoms rdk c) else PyNone)].

Fixpoint entries {conf positions} (rdk : RDKitConf conf positions)
    (on_the_fly_check : bool) (ind : nat) (angle_mesh : list (list pynum))
    (c : conf) : bookkeeping positions :=
  match angle_mesh with
  | [] => []
  | angles :: rest =>
      let c' := SetAllTorsionsDeg rdk c angles in
      (ind, entry_of rdk on_the_fly_check c' angles)
        :: entries rdk on_the_fly_check (S ind) rest c'
  end.

(** What a run leaves in the store, or the exception it ended with. *)
Definition store_of {conf positions}
    (r : result (conf * bookkeeping positions))
  : result (bookkeeping positions) :=
  match r with
  | inl e => inl e
  | inr (_, bookkeep) => inr bookkeep
  end.

(** Two conformers, possibly of different representations, behave alike from
    a pair of states on: [R] relates the states, setting the same angles keeps
    them related, and related states give the same positions and the same
    collision answer. *)
Record same_behaviour {conf1 conf2 positions}
    (rdk1 : RDKitConf conf1 positions) (rdk2 : RDKitConf conf2 positions)
    (R : conf1 -> conf2 -> Prop) : Prop := {
  sb_set : forall c1 c2 angles, R c1 c2 ->
    R (SetAllTorsionsDeg rdk1 c1 angles) (SetAllTorsionsDeg rdk2 c2 angles);
  sb_positions : forall c1 c2, R c1 c2 ->
    GetPositions rdk1 c1 = GetPositions rdk2 c2;
  sb_colliding : forall c1 c2, R c1 c2 ->
    HasCollidingAtoms rdk1 c1 = HasCollidingAtoms rdk2 c2
}.

(** ** Two small conformers for the examples

    [angles_conf] keeps the torsion angles that were set last; its positions
    are those angles, and it reports a collision when two neighbouring
    torsions have the same angle (modulo 360 for integers).  [counting_conf]
    keeps, besides, the number of calls of [SetAllTorsionsDeg].
    [numpy_unsupported] stands for numpy in the examples, none of which has a
    list that is left to it. *)

Definition same_angle (a b : pynum) : bool :=
  match a, b with
  | PyInt x, PyInt y => x mod 360 =? y mod 360
  | PyFloat f, PyFloat g => SFeqb f g
  | _, _ => false
  end.

Fixpoint neighbours_equal (l : list pynum) : bool :=
  match l with
  | a :: (b :: _) as t => same_angle a b || neighbours_equal t
  | _ => false
  end.

Definition angles_conf : RDKitConf (list pynum) (list pynum) :=
  {| SetAllTorsionsDeg := fun _ angles => angles;
     GetPositions := fun c => c;
     HasCollidingAtoms := neighbours_equal;
     GetTorsionalModes := fun c => map (fun i => [i; S i; S (S i); S (S (S i))])
                                       (seq 0 (length c)) |}.

Definition counting_conf : RDKitConf (nat * list pynum) (list pynum) :=
  {| SetAllTorsionsDeg := fun c angles => (S (fst c), angles);
     GetPositions := fun c => snd c;
     HasCollidingAtoms := fun c => neighbours_equal (snd c);
     GetTorsionalModes := fun _ => [] |}.

Definition numpy_unsupported (r : pynum) (l : list pynum)
  : result (list pynum) :=
  raise TypeError.

(** ** The cells that read the store *)

Section Readers.

Context {positions : Type}.

(** Whether a list of coordinates is empty is all that [if] asks of it. *)
Variable nonempty : positions -> bool.

(** The truth value of a stored value in a condition. *)
Definition truthy (v : pyvalue positions) : bool :=
  match v with
  | PyTuple [] => false
  | PyTuple (_ :: _) => true
  | PyPositions coords => nonempty coords
  | PyBool b => b
  | PyNone => false
  end.

(** [for value in bookkeep.values(): if value['colliding_atoms']: num += 1] *)
Fixpoint count_colliding (values : list (entry positions)) (num : nat)
  : result nat :=
  match values with
  | [] => ret num
  | value :: rest =>
      v <- dict_getitem value "colliding_atoms"%string ;;
      count_colliding rest (if truthy v then S num else num)
  end.

(** The cell that reports the colliding conformers: the two numbers of its
    last line, [num] and [len(bookkeep)]. *)
Definition colliding_report (bookkeep : bookkeeping positions)
  : result (nat * nat) :=
  num <- count_colliding (dict_values bookkeep) 0%nat ;;
  ret (num, length bookkeep).

End Readers.

(** [wrapper(i)] of the energy cell, up to its first statement that can
    fail, [xyz_dict['coords'] = bookkeep[i]['geom']].  [rest] stands for what
    the function does with the geometry afterwards (the conversion to a file
    and the energy evaluation, which are defined outside the notebook). *)
Definition wrapper {positions T} (rest : pyvalue positions -> T)
    (bookkeep : bookkeeping positions) (i : nat) : result T :=
  e <- dict_getitem bookkeep i ;;
  geom <- dict_getitem e "geom"%string ;;
  ret (rest geom).

(** ** More vocabulary *)

(** [d[k] = v] for every [(k, v)] of a list, in order. *)
Definition dict_setitems {K V} `{Hashable K} (d : dict K V)
    (kvs : list (K * V)) : dict K V :=
  fold_left (fun d kv => dict_setitem d (fst kv) (snd kv)) kvs d.

(** The loop over the dimensions without its accumulator: the schedules of
    the dimensions from position [ind] on. *)
Fixpoint schedules_from
    (numpy_other : pynum -> list pynum -> result (list pynum))
    (original_angles : list pynum) (ind : nat) (samplings : list sampling)
  : result (list (list pynum)) :=
  match samplings with
  | [] => ret []
  | angles :: rest =>
      a <- sample_dimension numpy_other original_angles ind angles ;;
      out <- schedules_from numpy_other original_angles (S ind) rest ;;
      ret (a :: out)
  end.

(** A dimension that numpy treats as fixed above and that does not fail: the
    reference angle is a float or an integer that fits in 64 bits, and the
    sampling is an integer, or a list of integers that fit in 64 bits. *)
Definition plain (r : pynum) (s : sampling) : Prop :=
  match r with PyInt z => in_int64 z = true | PyFloat _ => True end /\
  match s with
  | SInt _ => True
  | SFloat _ => False
  | SList l => exists zs, all_int64 l = Some zs
  end.

(** The number of angles that one sampling asks for. *)
Definition samples_per_dimension (s : sampling) : nat :=
  match s with
  | SInt n => if n =? 0 then 1%nat else Z.to_nat n
  | SFloat _ => 1%nat
  | SList l => length l
  end.

(** The states that the conformer goes through, one per tuple of the mesh. *)
Fixpoint states_after {conf positions} (rdk : RDKitConf conf positions)
    (c : conf) (angle_mesh : list (list pynum)) : list conf :=
  match angle_mesh with
  | [] => []
  | angles :: rest =>
      let c' := SetAllTorsionsDeg rdk c angles in
      c' :: states_after rdk c' rest
  end.

(** Lexicographic order on tuples of the same length. *)
Fixpoint lex_lt (s t : list Z) : Prop :=
  match s, t with
  | a :: s', b :: t' => a < b \/ (a = b /\ lex_lt s' t')
  | _, _ => False
  end.


(** * Properties *)

(** ** Lists *)

Lemma nth_error_map_seq {A} (f : nat -> A) (n i : nat) :
  nth_error (map f (seq 0 n)) i = if (i <? n)%nat then Some (f i) else None.
Proof.
  rewrite nth_error_map, nth_error_seq.
  destruct (i <? n)%nat; reflexivity.
Qed.



(** ** Numbers *)

Lemma in_int64_spec (z : Z) :
  in_int64 z = true <-> - 2 ^ 63 <= z < 2 ^ 63.
Proof.
  unfold in_int64. rewrite andb_true_iff, Z.leb_le, Z.ltb_lt. tauto.
Qed.

Lemma wrap64_in_int64 (z : Z) : in_int64 z = true -> wrap64 z = z.
Proof.
  intros Hz. apply in_int64_spec in Hz. unfold wrap64.
  rewrite Z.mod_small; lia.
Qed.

Lemma all_int64_map (zs : list Z) :
  Forall (fun z => in_int64 z = true) zs -> all_int64 (map PyInt zs) = Some zs.
Proof.
  induction 1 as [|z zs Hz _ IH]; simpl; [reflexivity|].
  rewrite Hz, IH. reflexivity.
Qed.

Lemma all_int64_Some (l : list pynum) (zs : list Z) :
  all_int64 l = Some zs ->
  l = map PyInt zs /\ Forall (fun z => in_int64 z = true) zs.
Proof.
  revert zs. induction l as [|[z|f] l IH]; intros zs H; simpl in H.
  - inversion H. split; [reflexivity | constructor].
  - destruct (in_int64 z) eqn:Hz; [|discriminate].
    destruct (all_int64 l) as [zs'|]; [|discriminate].
    inversion H; subst. destruct (IH zs' eq_refl) as [-> Hall].
    split; [reflexivity | constructor; assumption].
  - discriminate.
Qed.

Section ScheduleFacts.

Variable numpy_other : pynum -> list pynum -> result (list pynum).

(** ** The sum of a reference angle and an array of integers *)

(** Integers that fit in 64 bits, added to an integer that fits: the sums
    wrap around. *)
Lemma np_add_int64 (z : Z) (zs : list Z) :
  in_int64 z = true -> zs <> [] ->
  Forall (fun x => in_int64 x = true) zs ->
  np_add numpy_other (PyInt z) (map PyInt zs)
  = inr (map (fun x => PyInt (wrap64 (z + x))) zs).
Proof.
  intros Hz Hne Hall. unfold np_add, np_array.
  destruct zs as [|x zs]; [contradiction|].
  change (PyInt x :: map PyInt zs) with (map PyInt (x :: zs)).
  rewrite all_int64_map by assumption. cbn [map]. cbn [scalar_add].
  rewrite Hz. cbn [bind ret tolist]. rewrite map_map. reflexivity.
Qed.

(** The same, to an integer that does not fit. *)
Lemma np_add_overflow (z : Z) (zs : list Z) :
  in_int64 z = false -> zs <> [] ->
  Forall (fun x => in_int64 x = true) zs ->
  np_add numpy_other (PyInt z) (map PyInt zs) = inl OverflowError.
Proof.
  intros Hz Hne Hall. unfold np_add, np_array.
  destruct zs as [|x zs]; [contradiction|].
  change (PyInt x :: map PyInt zs) with (map PyInt (x :: zs)).
  rewrite all_int64_map by assumption. cbn [map]. cbn [scalar_add].
  rewrite Hz. reflexivity.
Qed.

(** Without overflow, and for a float reference, the sums are [shift]s. *)
Lemma np_add_shift (r : pynum) (zs : list Z) :
  fits r 0 ->
  Forall (fun x => in_int64 x = true) zs ->
  Forall (fits r) zs ->
  np_add numpy_other r (map PyInt zs) = inr (map (shift r) zs).
Proof.
  intros Hr Hall Hfits.
  destruct zs as [|x zs].
  - unfold np_add. simpl.
    destruct r as [z|f]; simpl; [|reflexivity].
    destruct Hr as [Hz _]. rewrite Hz. reflexivity.
  - destruct r as [z|f].
    + destruct Hr as [Hz _].
      rewrite np_add_int64 by (assumption || discriminate).
      f_equal. apply map_ext_in. intros y Hy.
      rewrite Forall_forall in Hfits. destruct (Hfits y Hy) as [_ Hsum].
      rewrite wrap64_in_int64 by assumption. reflexivity.
    + unfold np_add, np_array.
      change (PyInt x :: map PyInt zs) with (map PyInt (x :: zs)).
      rewrite all_int64_map by assumption. cbn [map]. cbn [scalar_add].
      cbn [bind ret tolist]. rewrite map_map. reflexivity.
Qed.

(** ** The schedule of one dimension *)

Lemma getitem_Some {A} (l : list A) (i : nat) (x : A) :
  nth_error l i = Some x -> getitem l i = inr x.
Proof. unfold getitem; intros ->; reflexivity. Qed.

Lemma getitem_None {A} (l : list A) (i : nat) :
  nth_error l i = None -> getitem l i = inl IndexError.
Proof. unfold getitem; intros ->; reflexivity. Qed.

Lemma sample_dimension_step (original_angles : list pynum) (ind : nat)
    (n : Z) (r : pynum) :
  n <> 0 ->
  nth_error original_angles ind = Some r ->
  sample_dimension numpy_other original_angles ind (SInt n)
  = np_add numpy_other r
      (map PyInt (map (fun k => Z.of_nat k * (360 / n)) (seq 0 (Z.to_nat n)))).
Proof.
  intros Hn Hr. apply getitem_Some in Hr.
  unfold sample_dimension, floordiv.
  destruct (Z.eqb_spec n 0) as [E|_]; [contradiction|].
  simpl. rewrite Hr. simpl. f_equal. unfold range.
  rewrite !map_map. apply map_ext. intros k.
  rewrite Z.mul_comm. reflexivity.
Qed.

Lemma sample_dimension_zero (original_angles : list pynum) (ind : nat)
    (r : pynum) :
  nth_error original_angles ind = Some r ->
  sample_dimension numpy_other original_angles ind (SInt 0)
  = np_add numpy_other r [PyInt 0].
Proof.
  intros Hr. apply getitem_Some in Hr.
  unfold sample_dimension, floordiv. simpl. rewrite Hr. reflexivity.
Qed.

Lemma sample_dimension_list (original_angles : list pynum) (ind : nat)
    (l : list pynum) (r : pynum) :
  nth_error original_angles ind = Some r ->
  sample_dimension numpy_other original_angles ind (SList l)
  = np_add numpy_other r l.
Proof.
  intros Hr. apply getitem_Some in Hr.
  unfold sample_dimension. rewrite Hr. reflexivity.
Qed.

Lemma sample_dimension_index_error (original_angles : list pynum)
    (ind : nat) (s : sampling) :
  nth_error original_angles ind = None ->
  sample_dimension numpy_other original_angles ind s = inl IndexError.
Proof.
  intros Hr. apply getitem_None in Hr.
  destruct s as [n|f|l]; unfold sample_dimension, floordiv.
  - destruct (n =? 0); simpl; rewrite Hr; reflexivity.
  - destruct (SFeqb f float_zero); rewrite Hr; reflexivity.
  - rewrite Hr. reflexivity.
Qed.

(** The body reads [original_angles] at [ind] only. *)
Lemma sample_dimension_ext (oa oa' : list pynum) (ind ind' : nat)
    (s : sampling) :
  nth_error oa ind = nth_error oa' ind' ->
  sample_dimension numpy_other oa ind s
  = sample_dimension numpy_other oa' ind' s.
Proof.
  intros E. unfold sample_dimension, getitem. rewrite E. reflexivity.
Qed.

(** ** The loop over the dimensions *)

Lemma sample_loop_schedules_from (original_angles : list pynum) :
  forall samplings ind angle_list,
    sample_loop numpy_other original_angles ind samplings angle_list
    = (out <- schedules_from numpy_other original_angles ind samplings ;;
       ret (angle_list ++ out)).
Proof.
  induction samplings as [|s rest IH]; intros ind angle_list; simpl.
  - rewrite app_nil_r. reflexivity.
  - destruct (sample_dimension numpy_other original_angles ind s) as [e|a];
      simpl; [reflexivity|].
    rewrite IH.
    destruct (schedules_from numpy_other original_angles (S ind) rest)
      as [e|out]; simpl; [reflexivity|].
    rewrite <- app_assoc. reflexivity.
Qed.

Lemma get_separable_angle_list_schedules_from (samplings : list sampling)
    (original_angles : option (list pynum)) :
  get_separable_angle_list numpy_other samplings original_angles
  = schedules_from numpy_other (reference_angles samplings original_angles)
      0 samplings.
Proof.
  unfold get_separable_angle_list. rewrite sample_loop_schedules_from.
  destruct (schedules_from numpy_other
              (reference_angles samplings original_angles) 0 samplings);
    reflexivity.
Qed.

(** When the loop returns, every dimension returned what the list holds. *)
Lemma schedules_from_inr (original_angles : list pynum) :
  forall samplings ind angle_list,
    schedules_from numpy_other original_angles ind samplings = inr angle_list ->
    length angle_list = length samplings /\
    forall i s, nth_error samplings i = Some s ->
      exists a,
        sample_dimension numpy_other original_angles (ind + i) s = inr a /\
        nth_error angle_list i = Some a.
Proof.
  induction samplings as [|s0 rest IH]; intros ind angle_list H; simpl in H.
  - inversion H. split; [reflexivity|]. intros [|i] s Hs; discriminate Hs.
  - destruct (sample_dimension numpy_other original_angles ind s0)
      as [e|a0] eqn:E0; simpl in H; [discriminate|].
    destruct (schedules_from numpy_other original_angles (S ind) rest)
      as [e|out] eqn:Eout; simpl in H; [discriminate|].
    inversion H; subst. destruct (IH _ _ Eout) as [Hlen Hnth].
    split; [simpl; lia|].
    intros [|i] s Hs; simpl in Hs.
    + inversion Hs; subst. exists a0. rewrite Nat.add_0_r. auto.
    + destruct (Hnth i s Hs) as (a & Ha & Hi). exists a.
      replace (ind + S i)%nat with (S ind + i)%nat by lia. auto.
Qed.

(** The loop returns when every dimension does. *)
Lemma schedules_from_returns (original_angles : list pynum) :
  forall samplings ind,
    (forall i s, nth_error samplings i = Some s ->
       exists a,
         sample_dimension numpy_other original_angles (ind + i) s = inr a) ->
    exists angle_list,
      schedules_from numpy_other original_angles ind samplings
      = inr angle_list.
Proof.
  induction samplings as [|s0 rest IH]; intros ind Hall; simpl.
  - exists []. reflexivity.
  - destruct (Hall 0%nat s0 eq_refl) as [a0 Ha0].
    rewrite Nat.add_0_r in Ha0. rewrite Ha0. simpl.
    destruct (IH (S ind)) as [out Hout].
    { intros i s Hs. destruct (Hall (S i) s Hs) as [a Ha]. exists a.
      replace (S ind + i)%nat with (ind + S i)%nat by lia. exact Ha. }
    rewrite Hout. simpl. eexists. reflexivity.
Qed.

Lemma schedules_from_app (original_angles : list pynum) :
  forall s1 s2 ind,
    schedules_from numpy_other original_angles ind (s1 ++ s2)
    = (l1 <- schedules_from numpy_other original_angles ind s1 ;;
       l2 <- schedules_from numpy_other original_angles
               (ind + length s1) s2 ;;
       ret (l1 ++ l2)).
Proof.
  induction s1 as [|s0 s1 IH]; intros s2 ind; simpl.
  - rewrite Nat.add_0_r.
    destruct (schedules_from numpy_other original_angles ind s2); reflexivity.
  - destruct (sample_dimension numpy_other original_angles ind s0)
      as [e|a0]; simpl; [reflexivity|].
    rewrite IH. replace (S ind + length s1)%nat
      with (ind + S (length s1))%nat by lia.
    destruct (schedules_from numpy_other original_angles (S ind) s1)
      as [e|l1]; simpl; [reflexivity|].
    destruct (schedules_from numpy_other original_angles
                (ind + S (length s1)) s2) as [e|l2]; reflexivity.
Qed.

Lemma schedules_from_ext (oa oa' : list pynum) :
  forall samplings ind ind',
    (forall i, (i < length samplings)%nat ->
       nth_error oa (ind + i) = nth_error oa' (ind' + i)) ->
    schedules_from numpy_other oa ind samplings
    = schedules_from numpy_other oa' ind' samplings.
Proof.
  induction samplings as [|s0 rest IH]; intros ind ind' Hext; simpl;
    [reflexivity|].
  rewrite (sample_dimension_ext oa oa' ind ind').
  2:{ specialize (Hext 0%nat). rewrite !Nat.add_0_r in Hext.
      apply Hext. simpl. lia. }
  rewrite (IH (S ind) (S ind')); [reflexivity|].
  intros i Hi. specialize (Hext (S i)).
  replace (S ind + i)%nat with (ind + S i)%nat by lia.
  replace (S ind' + i)%nat with (ind' + S i)%nat by lia.
  apply Hext. simpl. lia.
Qed.

(** The call returns, with the schedule of a dimension at its position, when
    that dimension and the others return. *)
Lemma get_separable_angle_list_at (samplings : list sampling)
    (original_angles : option (list pynum)) (ind : nat) (s : sampling)
    (a : list pynum) :
  nth_error samplings ind = Some s ->
  sample_dimension numpy_other (reference_angles samplings original_angles)
    ind s = inr a ->
  (forall i s', i <> ind -> nth_error samplings i = Some s' ->
     exists a',
       sample_dimension numpy_other
         (reference_angles samplings original_angles) i s' = inr a') ->
  exists angle_list,
    get_separable_angle_list numpy_other samplings original_angles
      = inr angle_list /\
    nth_error angle_list ind = Some a.
Proof.
  intros Hs Ha Hothers. rewrite get_separable_angle_list_schedules_from.
  destruct (schedules_from_returns
              (reference_angles samplings original_angles) samplings 0)
    as [angle_list Hrun].
  { intros i s' Hs'. simpl. destruct (Nat.eq_dec i ind) as [->|Hne].
    - exists a. congruence.
    - apply (Hothers i s' Hne Hs'). }
  exists angle_list. split; [assumption|].
  destruct (schedules_from_inr _ _ _ _ Hrun) as [_ Hnth].
  destruct (Hnth ind s Hs) as (a' & Ha' & Hi). simpl in Ha'. congruence.
Qed.



Lemma reference_angles_Some (samplings : list sampling) (refs : list pynum) :
  refs <> [] -> reference_angles samplings (Some refs) = refs.
Proof. destruct refs; [congruence | reflexivity]. Qed.

Lemma reference_angles_same_length (samplings : list sampling)
    (refs : list pynum) :
  length refs = length samplings ->
  reference_angles samplings (Some refs) = refs.
Proof.
  destruct refs as [|r refs]; intros Hlen; [|reflexivity].
  unfold reference_angles, or_else. simpl in Hlen.
  rewrite <- Hlen. reflexivity.
Qed.

End ScheduleFacts.

(** ** The mesh *)

Lemma flat_map_flat_map {A B C} (f : B -> list C) (g : A -> list B)
    (l : list A) :
  flat_map f (flat_map g l) = flat_map (fun x => flat_map f (g x)) l.
Proof.
  induction l as [|a l IH]; simpl; [reflexivity|].
  rewrite flat_map_app, IH. reflexivity.
Qed.

Lemma flat_map_singleton {A B} (f : A -> B) (l : list A) :
  flat_map (fun x => [f x]) l = map f l.
Proof. induction l as [|a l IH]; simpl; [|rewrite IH]; reflexivity. Qed.

Lemma extend_then_append {A} (x : list A) (pool : list A)
    (tails : list (list A)) :
  flat_map (fun z => map (app z) tails) (map (fun y => x ++ [y]) pool)
  = map (app x) (flat_map (fun y => map (cons y) tails) pool).
Proof.
  induction pool as [|y pool IH]; simpl; [reflexivity|].
  rewrite IH, map_app, map_map. f_equal.
  apply map_ext. intros t. rewrite <- app_assoc. reflexivity.
Qed.

(** The iteration of [itertools.product], started from any list of partial
    tuples, appends every tuple of the recursive product to every partial
    tuple. *)
Lemma fold_product_step {A} (pools : list (list A)) :
  forall partial,
    fold_left product_step pools partial
    = flat_map (fun x => map (app x) (cartesian pools)) partial.
Proof.
  induction pools as [|pool rest IH]; intros partial; simpl.
  - rewrite flat_map_singleton. rewrite <- (map_id partial) at 1.
    apply map_ext. intros x. rewrite app_nil_r. reflexivity.
  - rewrite IH. unfold product_step. rewrite flat_map_flat_map.
    apply flat_map_ext. intros x. apply extend_then_append.
Qed.

Lemma product_cartesian {A} (pools : list (list A)) :
  product pools = cartesian pools.
Proof.
  unfold product. rewrite fold_product_step. simpl.
  rewrite app_nil_r. apply map_id.
Qed.

Lemma seq_shift_add (a n : nat) : seq a n = map (fun j => (a + j)%nat) (seq 0 n).
Proof.
  revert a. induction n as [|n IH]; intros a; simpl; [reflexivity|].
  rewrite Nat.add_0_r. f_equal.
  rewrite (IH (S a)), (IH 1%nat), map_map.
  apply map_ext. intros j. lia.
Qed.

(** A mesh is laid out in blocks, one per value of the first dimension. *)
Lemma blocks_row_major (pool : list Z) (P : nat) (g : nat -> list Z) :
  flat_map (fun x => map (cons x) (map g (seq 0 P))) pool
  = map (fun i => nth (i / P) pool 0 :: g (i mod P)%nat)
        (seq 0 (length pool * P)).
Proof.
  destruct (Nat.eq_dec P 0) as [->|HP].
  - rewrite Nat.mul_0_r. simpl.
    induction pool as [|x pool IH]; simpl; auto.
  - induction pool as [|x pool IH]; [reflexivity|].
    cbn [flat_map length Nat.mul].
    rewrite seq_app, map_app, IH. f_equal.
    + rewrite map_map. apply map_ext_in. intros i Hi.
      apply in_seq in Hi.
      rewrite Nat.div_small, Nat.mod_small by lia. reflexivity.
    + cbn [Nat.add]. rewrite (seq_shift_add P), map_map.
      apply map_ext. intros j.
      replace (P + j)%nat with (1 * P + j)%nat by lia.
      rewrite Nat.div_add_l by assumption.
      replace (1 * P + j)%nat with (j + 1 * P)%nat by lia.
      rewrite Nat.Div0.mod_add. reflexivity.
Qed.

Lemma cartesian_row_major (pools : list (list Z)) :
  cartesian pools = map (mesh_point pools) (seq 0 (mesh_size pools)).
Proof.
  induction pools as [|pool rest IH]; [reflexivity|].
  cbn [cartesian mesh_size]. rewrite IH. apply blocks_row_major.
Qed.

Lemma length_mesh_point (pools : list (list Z)) :
  forall i, length (mesh_point pools i) = length pools.
Proof.
  induction pools as [|pool rest IH]; intros i; simpl; [|rewrite IH];
    reflexivity.
Qed.

Lemma mesh_size_empty_pool {A} (pools : list (list A)) :
  In [] pools -> mesh_size pools = 0%nat.
Proof.
  induction pools as [|pool rest IH]; intros Hin; [destruct Hin|].
  destruct Hin as [->|Hin]; simpl; [reflexivity|].
  rewrite IH by assumption. apply Nat.mul_0_r.
Qed.

Lemma in_cartesian {A} (pools : list (list A)) :
  forall t, In t (cartesian pools) <-> Forall2 (@In A) t pools.
Proof.
  induction pools as [|pool rest IH]; intros t; simpl.
  - split.
    + intros [<-|[]]. constructor.
    + intros H. inversion H. auto.
  - rewrite in_flat_map. split.
    + intros (x & Hx & Ht). apply in_map_iff in Ht.
      destruct Ht as (t' & <- & Ht'). constructor; [assumption|].
      apply IH. assumption.
    + intros H. inversion H as [|x pool' t' rest' Hx Ht']; subst.
      exists x. split; [assumption|]. apply in_map.
      apply IH. assumption.
Qed.

Lemma NoDup_cartesian {A} (pools : list (list A)) :
  Forall (@NoDup A) pools -> NoDup (cartesian pools).
Proof.
  induction 1 as [|pool rest Hpool _ IH]; simpl.
  - constructor; [intros []|constructor].
  - induction Hpool as [|x pool Hx _ IHpool]; simpl; [constructor|].
    apply NoDup_app; [|assumption|].
    + apply NoDup_map_NoDup_ForallPairs; [|assumption].
      intros t1 t2 _ _ E. inversion E. reflexivity.
    + intros t Ht Ht'. apply in_map_iff in Ht. destruct Ht as (t1 & <- & _).
      apply in_flat_map in Ht'. destruct Ht' as (y & Hy & Ht').
      apply in_map_iff in Ht'. destruct Ht' as (t2 & E & _).
      inversion E; subst. contradiction.
Qed.

(** ** Dictionaries *)

Lemma key_eqb_refl {K} `{Hashable K} (k : K) : key_eqb k k = true.
Proof. apply key_eqb_eq. reflexivity. Qed.

Lemma key_eqb_neq {K} `{Hashable K} (k k' : K) :
  k <> k' -> key_eqb k k' = false.
Proof.
  intros Hne. destruct (key_eqb k k') eqn:E; [|reflexivity].
  apply key_eqb_eq in E. contradiction.
Qed.

Lemma dict_get_setitem {K V} `{Hashable K} (d : dict K V) (k : K) (v : V) :
  dict_get (dict_setitem d k v) k = Some v.
Proof.
  induction d as [|[k' v'] d IH]; simpl.
  - rewrite key_eqb_refl. reflexivity.
  - destruct (key_eqb k k') eqn:E; simpl; rewrite E; auto.
Qed.

Lemma dict_setitem_twice {K V} `{Hashable K} (d : dict K V) (k : K)
    (v v' : V) :
  dict_setitem (dict_setitem d k v) k v' = dict_setitem d k v'.
Proof.
  induction d as [|[k0 v0] d IH]; simpl.
  - rewrite key_eqb_refl. reflexivity.
  - destruct (key_eqb k k0) eqn:E; simpl; rewrite E; [reflexivity|].
    rewrite IH. reflexivity.
Qed.

Lemma dict_setitem_fresh {K V} `{Hashable K} (d : dict K V) (k : K) (v : V) :
  ~ In k (dict_keys d) -> dict_setitem d k v = d ++ [(k, v)].
Proof.
  induction d as [|[k0 v0] d IH]; simpl; intros Hk; [reflexivity|].
  rewrite key_eqb_neq by intuition congruence.
  rewrite IH by tauto. reflexivity.
Qed.

Lemma dict_get_dense {V} (d : dict nat V) :
  forall start,
    dict_keys d = seq start (length d) ->
    forall k, dict_get d (start + k)%nat = option_map snd (nth_error d k).
Proof.
  induction d as [|[k0 v0] d IH]; intros start Hkeys k.
  - destruct k; reflexivity.
  - simpl in Hkeys. inversion Hkeys as [[Hk0 Hrest]]. subst k0.
    destruct k as [|k]; simpl.
    + rewrite Nat.add_0_r, Nat.eqb_refl. reflexivity.
    + replace (start + S k =? start)%nat with false
        by (symmetry; apply Nat.eqb_neq; lia).
      replace (start + S k)%nat with (S start + k)%nat by lia.
      apply IH. assumption.
Qed.

(** ** The generator *)

Section GeneratorFacts.

Context {conf positions : Type}.
Variable rdk : RDKitConf conf positions.
Variable on_the_fly_check : bool.

(** One iteration never fails, and leaves under [ind] the entry of the
    tuple, whatever the store held before. *)
Lemma change_torsions_eq (c : conf) (bookkeep : bookkeeping positions)
    (ind : nat) (angles : list pynum) :
  change_torsions rdk on_the_fly_check (c, bookkeep) ind angles
  = inr (SetAllTorsionsDeg rdk c angles,
         dict_setitem bookkeep ind
           (entry_of rdk on_the_fly_check
              (SetAllTorsionsDeg rdk c angles) angles)).
Proof.
  unfold change_torsions, dict_getitem.
  rewrite dict_get_setitem. simpl.
  rewrite dict_setitem_twice. reflexivity.
Qed.

Lemma dict_keys_entries (angle_mesh : list (list pynum)) :
  forall ind c,
    dict_keys (entries rdk on_the_fly_check ind angle_mesh c)
    = seq ind (length angle_mesh).
Proof.
  induction angle_mesh as [|angles rest IH]; intros ind c; simpl;
    [|rewrite IH]; reflexivity.
Qed.

Lemma length_entries (angle_mesh : list (list pynum)) (ind : nat) (c : conf) :
  length (entries rdk on_the_fly_check ind angle_mesh c)
  = length angle_mesh.
Proof.
  pose proof (dict_keys_entries angle_mesh ind c) as Hkeys.
  apply (f_equal (@length nat)) in Hkeys. unfold dict_keys in Hkeys.
  rewrite length_map, length_seq in Hkeys. exact Hkeys.
Qed.

Lemma nth_error_entries (angle_mesh : list (list pynum)) :
  forall ind c k angles,
    nth_error angle_mesh k = Some angles ->
    nth_error (entries rdk on_the_fly_check ind angle_mesh c) k
    = Some ((ind + k)%nat,
            entry_of rdk on_the_fly_check
              (SetAllTorsionsDeg rdk (conf_after rdk c angle_mesh k) angles)
              angles).
Proof.
  induction angle_mesh as [|a rest IH]; intros ind c k angles Hk.
  - destruct k; discriminate Hk.
  - destruct k as [|k]; simpl in Hk |- *.
    + inversion Hk; subst. rewrite Nat.add_0_r. reflexivity.
    + rewrite (IH (S ind) _ k angles Hk).
      replace (S ind + k)%nat with (ind + S k)%nat by lia. reflexivity.
Qed.

(** On a store whose keys are all below the running index, the loop appends
    the entries of the mesh in order. *)
Lemma mesh_loop_fresh (angle_mesh : list (list pynum)) :
  forall ind c bookkeep,
    (forall k, In k (dict_keys bookkeep) -> (k < ind)%nat) ->
    mesh_loop rdk on_the_fly_check ind angle_mesh (c, bookkeep)
    = inr (fold_left (SetAllTorsionsDeg rdk) angle_mesh c,
           bookkeep ++ entries rdk on_the_fly_check ind angle_mesh c).
Proof.
  induction angle_mesh as [|angles rest IH]; intros ind c bookkeep Hkeys.
  - simpl. rewrite app_nil_r. reflexivity.
  - cbn [mesh_loop]. rewrite change_torsions_eq. cbn [bind].
    rewrite dict_setitem_fresh.
    2:{ intros Hin. apply Hkeys in Hin. lia. }
    rewrite IH.
    + simpl. rewrite <- app_assoc. reflexivity.
    + intros k Hin. unfold dict_keys in Hin.
      rewrite map_app in Hin. apply in_app_iff in Hin.
      destruct Hin as [Hin|[<-|[]]]; [apply Hkeys in Hin; lia | simpl; lia].
Qed.

Lemma conformers_by_change_torsions_empty (c : conf)
    (angle_mesh : list (list pynum)) (torsions : option (list (list nat))) :
  conformers_by_change_torsions rdk c angle_mesh [] torsions
    on_the_fly_check
  = inr (fold_left (SetAllTorsionsDeg rdk) angle_mesh c,
         entries rdk on_the_fly_check 0 angle_mesh c).
Proof.
  unfold conformers_by_change_torsions.
  rewrite mesh_loop_fresh; [reflexivity|]. intros k [].
Qed.

End GeneratorFacts.

Lemma entries_same_behaviour {conf1 conf2 positions}
    (rdk1 : RDKitConf conf1 positions) (rdk2 : RDKitConf conf2 positions)
    (R : conf1 -> conf2 -> Prop) (on_the_fly_check : bool)
    (angle_mesh : list (list pynum)) :
  same_behaviour rdk1 rdk2 R ->
  forall ind c1 c2,
    R c1 c2 ->
    entries rdk1 on_the_fly_check ind angle_mesh c1
    = entries rdk2 on_the_fly_check ind angle_mesh c2.
Proof.
  intros HR.
  induction angle_mesh as [|angles rest IH]; intros ind c1 c2 Hc;
    [reflexivity|].
  pose proof (sb_set _ _ _ HR c1 c2 angles Hc) as Hc'.
  simpl. unfold entry_of.
  rewrite (sb_positions _ _ _ HR _ _ Hc'), (sb_colliding _ _ _ HR _ _ Hc').
  rewrite (IH (S ind) _ _ Hc'). reflexivity.
Qed.

Lemma dict_get_entries {conf positions} (rdk : RDKitConf conf positions)
    (on_the_fly_check : bool) (angle_mesh : list (list pynum)) (c : conf)
    (i : nat) (angles : list pynum) :
  nth_error angle_mesh i = Some angles ->
  dict_get (entries rdk on_the_fly_check 0 angle_mesh c) i
  = Some (entry_of rdk on_the_fly_check
            (SetAllTorsionsDeg rdk (conf_after rdk c angle_mesh i) angles)
            angles).
Proof.
  intros Hi.
  change i with (0 + i)%nat at 1. rewrite dict_get_dense.
  - rewrite (nth_error_entries rdk on_the_fly_check _ 0 c i angles Hi).
    reflexivity.
  - rewrite dict_keys_entries, length_entries. reflexivity.
Qed.

Lemma angles_of_entries {conf positions} (rdk : RDKitConf conf positions)
    (on_the_fly_check : bool) (angle_mesh : list (list pynum)) :
  forall ind c,
    map (fun e => dict_get e "angles"%string)
        (dict_values (entries rdk on_the_fly_check ind angle_mesh c))
    = map (fun angles => Some (PyTuple angles)) angle_mesh.
Proof.
  induction angle_mesh as [|angles rest IH]; intros ind c; simpl;
    [|rewrite IH]; reflexivity.
Qed.

Lemma unchecked_entries {conf positions} (rdk : RDKitConf conf positions)
    (angle_mesh : list (list pynum)) :
  forall ind c,
    Forall (fun e => dict_get e "colliding_atoms"%string = Some PyNone)
           (dict_values (entries rdk false ind angle_mesh c)).
Proof.
  induction angle_mesh as [|angles rest IH]; intros ind c; simpl;
    constructor; [reflexivity | apply IH].
Qed.

Lemma length_cartesian {A} (pools : list (list A)) :
  length (cartesian pools) = mesh_size pools.
Proof.
  induction pools as [|pool rest IH]; simpl; [reflexivity|].
  rewrite <- IH. induction pool as [|x pool IHpool]; simpl; [reflexivity|].
  rewrite length_app, length_map, IHpool. reflexivity.
Qed.

Lemma get_angle_mesh_empty_pool {A} (angle_list : list (list A)) :
  In [] angle_list -> get_angle_mesh angle_list = [].
Proof.
  intros Hin. apply length_zero_iff_nil. unfold get_angle_mesh.
  rewrite product_cartesian, length_cartesian.
  apply mesh_size_empty_pool. assumption.
Qed.


(** ** The claims *)

(** C1.  Run on an empty store, [conformers_by_change_torsions] ends without
    an exception and leaves exactly one entry per tuple of the mesh: the keys
    of the store, in insertion order, are [0, 1, ..., N-1] for a mesh of [N]
    tuples, and the entry under key [i], which is also the [i]-th inserted,
    has the [i]-th tuple under ["angles"]. *)
Theorem one_entry_per_mesh_point {conf positions}
    (rdk : RDKitConf conf positions) (c : conf) (angle_mesh : list (list pynum))
    (torsions : option (list (list nat))) (on_the_fly_check : bool) :
  exists c' bookkeep,
    conformers_by_change_torsions rdk c angle_mesh [] torsions
      on_the_fly_check = inr (c', bookkeep) /\
    length bookkeep = length angle_mesh /\
    dict_keys bookkeep = seq 0 (length angle_mesh) /\
    map (fun e => dict_get e "angles"%string) (dict_values bookkeep)
      = map (fun angles => Some (PyTuple angles)) angle_mesh /\
    forall i angles,
      nth_error angle_mesh i = Some angles ->
      exists e,
        nth_error bookkeep i = Some (i, e) /\
        dict_get bookkeep i = Some e /\
        dict_get e "angles"%string = Some (PyTuple angles).
Proof.
  eexists. eexists. split.
  { apply conformers_by_change_torsions_empty. }
  split; [apply length_entries|].
  split; [apply dict_keys_entries|].
  split; [apply angles_of_entries|].
  intros i angles Hi. eexists. split; [|split].
  - apply (nth_error_entries rdk on_the_fly_check _ 0 c i angles Hi).
  - apply dict_get_entries. assumption.
  - reflexivity.
Qed.

(** C2 (amended).  [get_angle_mesh] enumerates the Cartesian product of the
    schedules: its tuples are exactly the lists that take one value from each
    schedule, there are as many as the product of the schedules' lengths,
    each has one angle per schedule, the tuple at position [i] is the
    row-major decoding of [i] (last dimension fastest), and the mesh is empty
    when a schedule is empty.  The tuples are pairwise different when no
    schedule repeats a value. *)
Theorem get_angle_mesh_cartesian_product (angle_list : list (list Z)) :
  (forall t, In t (get_angle_mesh angle_list) <-> Forall2 (@In Z) t angle_list)
  /\ length (get_angle_mesh angle_list) = mesh_size angle_list
  /\ Forall (fun t => length t = length angle_list) (get_angle_mesh angle_list)
  /\ get_angle_mesh angle_list
     = map (mesh_point angle_list) (seq 0 (mesh_size angle_list))
  /\ (In [] angle_list -> get_angle_mesh angle_list = [])
  /\ (Forall (@NoDup Z) angle_list -> NoDup (get_angle_mesh angle_list))
  /\ get_angle_mesh [[0; 90]; [0; 180]]
     = [[0; 0]; [0; 180]; [90; 0]; [90; 180]].
Proof.
  unfold get_angle_mesh at 1 2 3 4 6 7. rewrite product_cartesian.
  repeat split.
  - apply in_cartesian.
  - apply in_cartesian.
  - rewrite cartesian_row_major, length_map, length_seq. reflexivity.
  - rewrite cartesian_row_major. apply Forall_forall. intros t Ht.
    apply in_map_iff in Ht. destruct Ht as (i & <- & _).
    apply length_mesh_point.
  - apply cartesian_row_major.
  - apply get_angle_mesh_empty_pool.
  - apply NoDup_cartesian.
Qed.

(** C2, as stated, fails: a schedule that repeats a value gives a mesh that
    repeats a tuple. *)
Lemma get_angle_mesh_repeats_tuples :
  get_angle_mesh [[0; 0]] = [[0]; [0]] /\ ~ NoDup (get_angle_mesh [[0; 0]]).
Proof.
  split; [reflexivity|].
  intros H. inversion H as [|t l Hnotin _]; subst.
  apply Hnotin. left. reflexivity.
Qed.

(** C6.  In the store that a run on an empty store leaves, the entry of the
    [i]-th tuple has under ["colliding_atoms"]: [None] when
    [on_the_fly_check] is [False] (never a boolean), and when it is [True]
    the boolean that [HasCollidingAtoms] answers on the conformer once that
    tuple was set.  These entries are all the entries of the store. *)
Theorem colliding_atoms_recorded {conf positions}
    (rdk : RDKitConf conf positions) (c : conf) (angle_mesh : list (list pynum))
    (torsions : option (list (list nat))) (on_the_fly_check : bool) :
  exists c' bookkeep,
    conformers_by_change_torsions rdk c angle_mesh [] torsions
      on_the_fly_check = inr (c', bookkeep) /\
    dict_keys bookkeep = seq 0 (length angle_mesh) /\
    (on_the_fly_check = false ->
     Forall (fun e => dict_get e "colliding_atoms"%string = Some PyNone)
            (dict_values bookkeep)) /\
    forall i angles,
      nth_error angle_mesh i = Some angles ->
      exists e,
        nth_error bookkeep i = Some (i, e) /\
        dict_get bookkeep i = Some e /\
        dict_get e "colliding_atoms"%string
        = Some (if on_the_fly_check
                then PyBool (HasCollidingAtoms rdk
                               (SetAllTorsionsDeg rdk
                                  (conf_after rdk c angle_mesh i) angles))
                else PyNone).
Proof.
  eexists. eexists. split.
  { apply conformers_by_change_torsions_empty. }
  split; [apply dict_keys_entries|]. split.
  { intros ->. apply unchecked_entries. }
  intros i angles Hi. eexists. split; [|split].
  - apply (nth_error_entries rdk on_the_fly_check _ 0 c i angles Hi).
  - apply dict_get_entries. assumption.
  - reflexivity.
Qed.

(** C9.  Two runs of the notebook's generation on the same samplings, the
    same reference angles and the same collision-check flag, on conformers
    that behave alike from their initial states on, end alike: with the same
    exception, or with the same store (same keys in the same order, same
    angles, coordinates and collision flags under each key). *)
Theorem generate_deterministic {conf1 conf2 positions}
    (rdk1 : RDKitConf conf1 positions) (rdk2 : RDKitConf conf2 positions)
    (numpy_other : pynum -> list pynum -> result (list pynum))
    (R : conf1 -> conf2 -> Prop) (c1 : conf1) (c2 : conf2)
    (samplings : list sampling) (original_angles : option (list pynum))
    (torsions1 torsions2 : option (list (list nat)))
    (on_the_fly_check : bool) :
  same_behaviour rdk1 rdk2 R ->
  R c1 c2 ->
  store_of (generate rdk1 numpy_other c1 samplings original_angles torsions1
              on_the_fly_check)
  = store_of (generate rdk2 numpy_other c2 samplings original_angles
                torsions2 on_the_fly_check).
Proof.
  intros HR Hc. unfold generate.
  destruct (get_separable_angle_list numpy_other samplings original_angles)
    as [e|angles_list]; [reflexivity|].
  cbn [bind]. rewrite !conformers_by_change_torsions_empty. cbn [store_of].
  f_equal. apply (entries_same_behaviour rdk1 rdk2 R); assumption.
Qed.

Lemma generate_deterministic_example :
  store_of (generate angles_conf numpy_unsupported []
              [SInt 2; SList [PyInt 0; PyInt 30]]
              (Some [PyInt 0; PyInt 180]) None true)
  = store_of (generate counting_conf numpy_unsupported (0%nat, [])
                [SInt 2; SList [PyInt 0; PyInt 30]]
                (Some [PyInt 0; PyInt 180]) (Some [[0; 1; 2; 3]%nat]) true).
Proof.
  apply (generate_deterministic angles_conf counting_conf numpy_unsupported
           (fun c1 c2 => c1 = snd c2)).
  - constructor; simpl; intros; subst; reflexivity.
  - reflexivity.
Defined.


(** ** Schedules of step counts and of offsets *)

Lemma fits_between (r : pynum) (x y : Z) :
  fits r 0 -> fits r y -> 0 <= x <= y -> fits r x.
Proof.
  destruct r as [z|f]; simpl; [|trivial].
  rewrite Z.add_0_r. intros [Hz _] [_ Hy] Hx. split; [assumption|].
  apply in_int64_spec in Hz, Hy. apply in_int64_spec. lia.
Qed.

Lemma step_multiple_bounds (n : Z) (k : nat) :
  0 < n -> (k < Z.to_nat n)%nat ->
  0 <= Z.of_nat k * (360 / n) <= (n - 1) * (360 / n) /\
  (n - 1) * (360 / n) < 360.
Proof.
  intros Hn Hk.
  assert (Hq : 0 <= 360 / n) by (apply Z.div_pos; lia).
  pose proof (Z.mul_div_le 360 n Hn) as Hle.
  split; nia.
Qed.


(** A positive step count, on a reference angle whose sums do not overflow:
    the schedule is the reference angle shifted by the multiples of the
    step. *)
Lemma sample_dimension_step_shift
    (numpy_other : pynum -> list pynum -> result (list pynum))
    (original_angles : list pynum) (ind : nat) (n : Z) (r : pynum) :
  0 < n ->
  nth_error original_angles ind = Some r ->
  fits r 0 -> fits r ((n - 1) * (360 / n)) ->
  sample_dimension numpy_other original_angles ind (SInt n)
  = inr (map (fun k => shift r (Z.of_nat k * (360 / n)))
           (seq 0 (Z.to_nat n))).
Proof.
  intros Hn Hr H0 Hmax.
  assert (Hn0 : n <> 0) by lia.
  rewrite (sample_dimension_step numpy_other _ _ _ _ Hn0 Hr).
  rewrite np_add_shift; [rewrite map_map; reflexivity | assumption | |].
  - apply Forall_forall. intros x Hx. apply in_map_iff in Hx.
    destruct Hx as (k & <- & Hk). apply in_seq in Hk.
    destruct (step_multiple_bounds n k Hn ltac:(lia)) as [Hb Hlt].
    apply in_int64_spec. lia.
  - apply Forall_forall. intros x Hx. apply in_map_iff in Hx.
    destruct Hx as (k & <- & Hk). apply in_seq in Hk.
    destruct (step_multiple_bounds n k Hn ltac:(lia)) as [Hb _].
    apply (fits_between r _ ((n - 1) * (360 / n))); assumption.
Qed.

Lemma float64_add_zero (f : float64) :
  f <> S754_zero true -> float64_add f (float_of_int 0) = f.
Proof.
  intros Hf. destruct f as [[|]| | |]; try reflexivity. contradiction.
Qed.

(** C3 (amended).  A dimension whose sampling is the step count [n > 0] gets
    the schedule of exactly [n] values, the [k]-th being the reference angle
    plus [k * floor(360 / n)], not reduced into [0, 360): the exact sum when
    the reference angle is an integer that fits in 64 bits, as its sum with
    [(n - 1) * floor(360 / n)] does, and the float64 sum when it is a float.
    (The other dimensions are assumed not to fail.) *)
Theorem step_count_schedule
    (numpy_other : pynum -> list pynum -> result (list pynum))
    (samplings : list sampling) (original_angles : option (list pynum))
    (ind : nat) (n : Z) (r : pynum) :
  nth_error samplings ind = Some (SInt n) ->
  0 < n ->
  nth_error (reference_angles samplings original_angles) ind = Some r ->
  fits r 0 -> fits r ((n - 1) * (360 / n)) ->
  (forall i s, i <> ind -> nth_error samplings i = Some s ->
     exists a,
       sample_dimension numpy_other
         (reference_angles samplings original_angles) i s = inr a) ->
  exists angle_list angles,
    get_separable_angle_list numpy_other samplings original_angles
      = inr angle_list /\
    nth_error angle_list ind = Some angles /\
    Z.of_nat (length angles) = n /\
    angles = map (fun k => shift r (Z.of_nat k * (360 / n)))
               (seq 0 (Z.to_nat n)) /\
    (forall k, 0 <= k < n ->
       nth_error angles (Z.to_nat k) = Some (shift r (k * (360 / n)))) /\
    (forall z, r = PyInt z ->
       forall k, 0 <= k < n ->
         nth_error angles (Z.to_nat k) = Some (PyInt (z + k * (360 / n)))).
Proof.
  intros Hs Hn Hr H0 Hmax Hothers.
  pose proof (sample_dimension_step_shift numpy_other _ _ _ _ Hn Hr H0 Hmax)
    as Hdim.
  destruct (get_separable_angle_list_at numpy_other _ _ _ _ _ Hs Hdim Hothers)
    as (angle_list & Hrun & Hnth).
  assert (Hk : forall k, 0 <= k < n ->
            nth_error (map (fun k => shift r (Z.of_nat k * (360 / n)))
                         (seq 0 (Z.to_nat n))) (Z.to_nat k)
            = Some (shift r (k * (360 / n)))).
  { intros k Hk. rewrite nth_error_map_seq.
    destruct (Nat.ltb_spec (Z.to_nat k) (Z.to_nat n)) as [_|Hge]; [|lia].
    rewrite Z2Nat.id by lia. reflexivity. }
  eexists. eexists. split; [exact Hrun|]. split; [exact Hnth|].
  split; [rewrite length_map, length_seq; lia|].
  split; [reflexivity|]. split; [exact Hk|].
  intros z -> k Hkn. apply (Hk k Hkn).
Qed.

Lemma step_count_schedule_example :
  exists angle_list angles,
    get_separable_angle_list numpy_unsupported
      [SList [PyInt 120; PyInt 240]; SInt 2] (Some [PyInt 15; PyInt 300])
      = inr angle_list /\
    nth_error angle_list 1 = Some angles /\
    Z.of_nat (length angles) = 2 /\
    angles = map (fun k => shift (PyInt 300) (Z.of_nat k * (360 / 2)))
               (seq 0 (Z.to_nat 2)) /\
    (forall k, 0 <= k < 2 ->
       nth_error angles (Z.to_nat k)
       = Some (shift (PyInt 300) (k * (360 / 2)))) /\
    (forall z, PyInt 300 = PyInt z ->
       forall k, 0 <= k < 2 ->
         nth_error angles (Z.to_nat k) = Some (PyInt (z + k * (360 / 2)))).
Proof.
  apply (step_count_schedule numpy_unsupported
           [SList [PyInt 120; PyInt 240]; SInt 2] (Some [PyInt 15; PyInt 300])
           1 2 (PyInt 300));
    [reflexivity | lia | reflexivity | split; reflexivity
    | split; reflexivity |].
  intros [|[|i]] s Hi Hs; try contradiction.
  - inversion Hs; subst. eexists. reflexivity.
  - destruct i; discriminate Hs.
Defined.

(** C3, as stated, fails: on the reference angle [2^63 - 1] the second value
    of the schedule of the step count 2 has wrapped around. *)
Lemma step_count_schedule_wraps :
  get_separable_angle_list numpy_unsupported [SInt 2]
    (Some [PyInt (2 ^ 63 - 1)])
  = inr [[PyInt (2 ^ 63 - 1); PyInt (179 - 2 ^ 63)]] /\
  179 - 2 ^ 63 <> (2 ^ 63 - 1) + 1 * (360 / 2).
Proof. split; [vm_compute; reflexivity | vm_compute; discriminate]. Qed.

(** C4 (amended).  A dimension whose sampling is the step count 0 gets the
    schedule of the one value [r + 0], without an exception, when its
    reference angle [r] is a float or an integer that fits in 64 bits: this
    is [r] itself for an integer and for a float other than [-0.].  (The
    other dimensions are assumed not to fail.) *)
Theorem zero_step_count_schedule
    (numpy_other : pynum -> list pynum -> result (list pynum))
    (samplings : list sampling) (original_angles : option (list pynum))
    (ind : nat) (r : pynum) :
  nth_error samplings ind = Some (SInt 0) ->
  nth_error (reference_angles samplings original_angles) ind = Some r ->
  fits r 0 ->
  (forall i s, i <> ind -> nth_error samplings i = Some s ->
     exists a,
       sample_dimension numpy_other
         (reference_angles samplings original_angles) i s = inr a) ->
  exists angle_list,
    get_separable_angle_list numpy_other samplings original_angles
      = inr angle_list /\
    nth_error angle_list ind = Some [shift r 0] /\
    sample_dimension numpy_other
      (reference_angles samplings original_angles) ind (SInt 0)
      = inr [shift r 0] /\
    (forall z, r = PyInt z -> shift r 0 = PyInt z) /\
    (forall f, r = PyFloat f -> f <> S754_zero true -> shift r 0 = PyFloat f).
Proof.
  intros Hs Hr H0 Hothers.
  assert (Hdim : sample_dimension numpy_other
                   (reference_angles samplings original_angles) ind (SInt 0)
                 = inr [shift r 0]).
  { rewrite (sample_dimension_zero numpy_other _ _ _ Hr).
    apply (np_add_shift numpy_other r [0]); [assumption | |].
    - repeat constructor.
    - constructor; [assumption | constructor]. }
  destruct (get_separable_angle_list_at numpy_other _ _ _ _ _ Hs Hdim Hothers)
    as (angle_list & Hrun & Hnth).
  exists angle_list. split; [assumption|]. split; [assumption|].
  split; [assumption|]. split.
  - intros z ->. simpl. rewrite Z.add_0_r. reflexivity.
  - intros f -> Hf. simpl. rewrite float64_add_zero by assumption.
    reflexivity.
Qed.

Lemma zero_step_count_schedule_example :
  exists angle_list,
    get_separable_angle_list numpy_unsupported [SInt 4; SInt 0]
      (Some [PyInt 0; PyInt 77]) = inr angle_list /\
    nth_error angle_list 1 = Some [shift (PyInt 77) 0] /\
    sample_dimension numpy_unsupported
      (reference_angles [SInt 4; SInt 0] (Some [PyInt 0; PyInt 77])) 1
      (SInt 0) = inr [shift (PyInt 77) 0] /\
    (forall z, PyInt 77 = PyInt z -> shift (PyInt 77) 0 = PyInt z) /\
    (forall f, PyInt 77 = PyFloat f -> f <> S754_zero true ->
       shift (PyInt 77) 0 = PyFloat f).
Proof.
  apply (zero_step_count_schedule numpy_unsupported [SInt 4; SInt 0]
           (Some [PyInt 0; PyInt 77]) 1 (PyInt 77));
    [reflexivity | reflexivity | split; reflexivity |].
  intros [|[|i]] s Hi Hs; try contradiction.
  - inversion Hs; subst. eexists. reflexivity.
  - destruct i; discriminate Hs.
Defined.

(** C4, as stated, fails: on the reference angle [2^63], which does not fit
    in 64 bits, the step count 0 ends with [OverflowError]. *)
Lemma zero_step_count_overflow :
  get_separable_angle_list numpy_unsupported [SInt 0] (Some [PyInt (2 ^ 63)])
  = inl OverflowError.
Proof. reflexivity. Qed.




(** C7 (amended).  When [original_angles] is given, is not empty and is
    shorter than [samplings], the call returns no schedules and validates
    nothing beforehand: it ends as the loop over the dimensions that have a
    reference angle ends when that fails, and with the [IndexError] of the
    first dimension without a reference angle otherwise.  An empty
    [original_angles] is treated like [None]. *)
Theorem short_reference_index_error
    (numpy_other : pynum -> list pynum -> result (list pynum))
    (samplings : list sampling) (refs : list pynum) :
  refs <> [] ->
  (length refs < length samplings)%nat ->
  get_separable_angle_list numpy_other samplings (Some refs)
  = (angle_list <-
       get_separable_angle_list numpy_other
         (firstn (length refs) samplings) (Some refs) ;;
     raise IndexError) /\
  (exists e,
     get_separable_angle_list numpy_other samplings (Some refs) = inl e) /\
  (forall angle_list,
     get_separable_angle_list numpy_other
       (firstn (length refs) samplings) (Some refs) = inr angle_list ->
     length angle_list = length refs /\
     get_separable_angle_list numpy_other samplings (Some refs)
     = inl IndexError) /\
  get_separable_angle_list numpy_other samplings (Some [])
    = get_separable_angle_list numpy_other samplings None.
Proof.
  intros Hne Hlt.
  assert (Heq : get_separable_angle_list numpy_other samplings (Some refs)
                = (angle_list <-
                     get_separable_angle_list numpy_other
                       (firstn (length refs) samplings) (Some refs) ;;
                   raise IndexError)).
  { rewrite !get_separable_angle_list_schedules_from.
    rewrite !reference_angles_Some by assumption.
    rewrite <- (firstn_skipn (length refs) samplings) at 1.
    rewrite schedules_from_app.
    destruct (schedules_from numpy_other refs 0
                (firstn (length refs) samplings)) as [e|l1];
      [reflexivity|]. cbn [bind].
    rewrite length_firstn, Nat.min_l by lia. cbn [Nat.add].
    destruct (skipn (length refs) samplings) as [|s rest] eqn:Hskip.
    - apply (f_equal (@length sampling)) in Hskip.
      rewrite length_skipn in Hskip. simpl in Hskip. lia.
    - cbn [schedules_from].
      rewrite sample_dimension_index_error; [reflexivity|].
      apply nth_error_None. lia. }
  split; [exact Heq|]. split; [|split; [|reflexivity]].
  - rewrite Heq.
    destruct (get_separable_angle_list numpy_other
                (firstn (length refs) samplings) (Some refs)) as [e|l];
      [exists e | exists IndexError]; reflexivity.
  - intros angle_list Hprefix. split.
    + rewrite get_separable_angle_list_schedules_from in Hprefix.
      destruct (schedules_from_inr _ _ _ _ _ Hprefix) as [Hlen _].
      rewrite Hlen, length_firstn. lia.
    + rewrite Heq, Hprefix. reflexivity.
Qed.

Lemma short_reference_index_error_example :
  get_separable_angle_list numpy_unsupported [SInt 2; SInt 2]
    (Some [PyInt 10])
  = (angle_list <-
       get_separable_angle_list numpy_unsupported
         (firstn (length [PyInt 10]) [SInt 2; SInt 2]) (Some [PyInt 10]) ;;
     raise IndexError) /\
  (exists e,
     get_separable_angle_list numpy_unsupported [SInt 2; SInt 2]
       (Some [PyInt 10]) = inl e) /\
  (forall angle_list,
     get_separable_angle_list numpy_unsupported
       (firstn (length [PyInt 10]) [SInt 2; SInt 2]) (Some [PyInt 10])
       = inr angle_list ->
     length angle_list = length [PyInt 10] /\
     get_separable_angle_list numpy_unsupported [SInt 2; SInt 2]
       (Some [PyInt 10]) = inl IndexError) /\
  get_separable_angle_list numpy_unsupported [SInt 2; SInt 2] (Some [])
    = get_separable_angle_list numpy_unsupported [SInt 2; SInt 2] None.
Proof.
  apply (short_reference_index_error numpy_unsupported [SInt 2; SInt 2]
           [PyInt 10]);
    [discriminate | simpl; lia].
Defined.

(** C7, as stated, fails: an empty [original_angles] is given and is shorter
    than [samplings], and the call returns schedules built on the reference
    angle [0.]. *)
Lemma empty_reference_is_padded :
  (length (@nil pynum) < length [SInt 2])%nat /\
  get_separable_angle_list numpy_unsupported [SInt 2] (Some [])
  = inr [[PyFloat (float_of_int 0); PyFloat (float_of_int 180)]].
Proof. split; [simpl; lia | vm_compute; reflexivity]. Qed.

(** The exception of an earlier dimension comes before the [IndexError] of
    the missing reference angle: nothing is checked before the loop. *)
Example earlier_failure_first :
  get_separable_angle_list numpy_unsupported [SInt 0; SInt 2]
    (Some [PyInt (2 ^ 63)])
  = inl OverflowError /\
  get_separable_angle_list numpy_unsupported [SInt 0; SInt 2]
    (Some [PyInt 5])
  = inl IndexError.
Proof. split; reflexivity. Qed.






(** * Further properties *)

(** ** The coordinates of an entry *)

(** X5.  The coordinates stored for the [i]-th tuple are the positions read
    right after that tuple was set, whatever [on_the_fly_check] is and
    whatever was set later; and an entry has the three keys ["angles"],
    ["coords"] and ["colliding_atoms"], in this order, and no other. *)
Theorem coords_recorded {conf positions}
    (rdk : RDKitConf conf positions) (c : conf) (angle_mesh : list (list pynum))
    (torsions : option (list (list nat))) (on_the_fly_check : bool) :
  exists c' bookkeep,
    conformers_by_change_torsions rdk c angle_mesh [] torsions
      on_the_fly_check = inr (c', bookkeep) /\
    forall i angles,
      nth_error angle_mesh i = Some angles ->
      exists e,
        dict_get bookkeep i = Some e /\
        dict_get e "coords"%string
        = Some (PyPositions
                  (GetPositions rdk
                     (SetAllTorsionsDeg rdk (conf_after rdk c angle_mesh i)
                        angles))) /\
        dict_keys e
        = ["angles"%string; "coords"%string; "colliding_atoms"%string].
Proof.
  eexists. eexists. split.
  { apply conformers_by_change_torsions_empty. }
  intros i angles Hi. eexists. split; [|split].
  - apply dict_get_entries. exact Hi.
  - reflexivity.
  - reflexivity.
Qed.

(** ** A store that is not empty *)

Lemma dict_get_setitem_other {K V} `{Hashable K} (d : dict K V) (k k' : K)
    (v : V) :
  k <> k' -> dict_get (dict_setitem d k' v) k = dict_get d k.
Proof.
  intros Hne. induction d as [|[k0 v0] d IH]; simpl.
  - rewrite key_eqb_neq by assumption. reflexivity.
  - destruct (key_eqb k' k0) eqn:E; simpl.
    + apply key_eqb_eq in E. subst k0.
      rewrite key_eqb_neq by assumption. reflexivity.
    + rewrite IH. reflexivity.
Qed.

Lemma dict_get_None {K V} `{Hashable K} (d : dict K V) (k : K) :
  ~ In k (dict_keys d) -> dict_get d k = None.
Proof.
  induction d as [|[k0 v0] d IH]; simpl; intros Hk; [reflexivity|].
  rewrite key_eqb_neq by intuition congruence. apply IH. tauto.
Qed.

Lemma dict_keys_setitem {K V} `{Hashable K} (d : dict K V) (k : K) (v : V) :
  exists new, dict_keys (dict_setitem d k v) = dict_keys d ++ new.
Proof.
  induction d as [|[k0 v0] d [new IH]]; simpl.
  - exists [k]. reflexivity.
  - destruct (key_eqb k k0); simpl.
    + exists []. rewrite app_nil_r. reflexivity.
    + exists new. rewrite IH. reflexivity.
Qed.

Lemma dict_setitems_cons {K V} `{Hashable K} (d : dict K V) (k : K) (v : V)
    (kvs : list (K * V)) :
  dict_setitems d ((k, v) :: kvs) = dict_setitems (dict_setitem d k v) kvs.
Proof. reflexivity. Qed.

Lemma dict_keys_setitems {K V} `{Hashable K} (kvs : list (K * V)) :
  forall d : dict K V,
    exists new, dict_keys (dict_setitems d kvs) = dict_keys d ++ new.
Proof.
  induction kvs as [|[k v] kvs IH]; intros d.
  - exists []. rewrite app_nil_r. reflexivity.
  - destruct (IH (dict_setitem d k v)) as [new2 H2].
    destruct (dict_keys_setitem d k v) as [new1 H1].
    exists (new1 ++ new2).
    rewrite dict_setitems_cons, H2, H1, app_assoc. reflexivity.
Qed.

Lemma dict_get_setitems_other {K V} `{Hashable K} (kvs : list (K * V)) :
  forall (d : dict K V) k,
    ~ In k (map fst kvs) -> dict_get (dict_setitems d kvs) k = dict_get d k.
Proof.
  induction kvs as [|[k0 v0] kvs IH]; intros d k Hk; [reflexivity|].
  simpl in Hk. rewrite dict_setitems_cons, IH by tauto.
  apply dict_get_setitem_other. intuition congruence.
Qed.

Lemma dict_get_setitems_in {K V} `{Hashable K} (kvs : list (K * V)) :
  forall (d : dict K V) k v,
    NoDup (map fst kvs) -> In (k, v) kvs ->
    dict_get (dict_setitems d kvs) k = Some v.
Proof.
  induction kvs as [|[k0 v0] kvs IH]; intros d k v Hnd Hin; [destruct Hin|].
  simpl in Hnd. inversion Hnd as [|? ? Hnotin Hnd']; subst.
  destruct Hin as [E|Hin].
  - inversion E; subst.
    rewrite dict_setitems_cons, dict_get_setitems_other by assumption.
    apply dict_get_setitem.
  - rewrite dict_setitems_cons. apply (IH _ k v Hnd' Hin).
Qed.

Lemma mesh_loop_setitems {conf positions} (rdk : RDKitConf conf positions)
    (on_the_fly_check : bool) (angle_mesh : list (list pynum)) :
  forall ind c bookkeep,
    mesh_loop rdk on_the_fly_check ind angle_mesh (c, bookkeep)
    = inr (fold_left (SetAllTorsionsDeg rdk) angle_mesh c,
           dict_setitems bookkeep
             (entries rdk on_the_fly_check ind angle_mesh c)).
Proof.
  induction angle_mesh as [|angles rest IH]; intros ind c bookkeep;
    [reflexivity|].
  cbn [mesh_loop]. rewrite change_torsions_eq. cbn [bind].
  rewrite IH. cbn [entries]. rewrite dict_setitems_cons. reflexivity.
Qed.

(** X6.  On any store, [conformers_by_change_torsions] ends without an
    exception and leaves the conformer as the last tuple set it.  The entry
    of the [i]-th tuple is found under key [i], replacing what the store had
    there; the entries under keys from the length of the mesh on are kept as
    they were; and the keys the store had keep their places, new keys coming
    after them. *)
Theorem conformers_by_change_torsions_any_store {conf positions}
    (rdk : RDKitConf conf positions) (c : conf) (angle_mesh : list (list pynum))
    (bookkeep : bookkeeping positions) (torsions : option (list (list nat)))
    (on_the_fly_check : bool) :
  exists bookkeep',
    conformers_by_change_torsions rdk c angle_mesh bookkeep torsions
      on_the_fly_check
    = inr (fold_left (SetAllTorsionsDeg rdk) angle_mesh c, bookkeep') /\
    (forall i angles,
       nth_error angle_mesh i = Some angles ->
       dict_get bookkeep' i
       = Some (entry_of rdk on_the_fly_check
                 (SetAllTorsionsDeg rdk (conf_after rdk c angle_mesh i) angles)
                 angles)) /\
    (forall k, (length angle_mesh <= k)%nat ->
       dict_get bookkeep' k = dict_get bookkeep k) /\
    (exists new, dict_keys bookkeep' = dict_keys bookkeep ++ new).
Proof.
  eexists. split.
  { unfold conformers_by_change_torsions. cbv zeta.
    apply mesh_loop_setitems. }
  assert (Hkeys : map fst (entries rdk on_the_fly_check 0 angle_mesh c)
                  = seq 0 (length angle_mesh))
    by apply dict_keys_entries.
  split; [|split].
  - intros i angles Hi. apply dict_get_setitems_in.
    + rewrite Hkeys. apply seq_NoDup.
    + pose proof (nth_error_entries rdk on_the_fly_check _ 0 c i angles Hi)
        as Hnth.
      apply nth_error_In in Hnth. exact Hnth.
  - intros k Hk. apply dict_get_setitems_other.
    rewrite Hkeys, in_seq. lia.
  - apply dict_keys_setitems.
Qed.

(** ** The cells that read the store *)

Lemma count_colliding_entries {conf positions}
    (rdk : RDKitConf conf positions) (nonempty : positions -> bool)
    (on_the_fly_check : bool) (angle_mesh : list (list pynum)) :
  forall ind c num,
    count_colliding nonempty
      (dict_values (entries rdk on_the_fly_check ind angle_mesh c)) num
    = inr (num + (if on_the_fly_check
                  then length (filter (HasCollidingAtoms rdk)
                                 (states_after rdk c angle_mesh))
                  else 0))%nat.
Proof.
  induction angle_mesh as [|angles rest IH]; intros ind c num.
  - simpl. destruct on_the_fly_check; rewrite Nat.add_0_r; reflexivity.
  - cbn [entries dict_values map snd count_colliding states_after filter].
    change (map snd ?l) with (dict_values l).
    unfold entry_of at 1, dict_getitem. cbn [dict_get key_eqb string_hashable].
    cbn [String.eqb Ascii.eqb Bool.eqb bind ret]. rewrite IH.
    destruct on_the_fly_check; cbn [truthy].
    + destruct (HasCollidingAtoms rdk (SetAllTorsionsDeg rdk c angles));
        cbn [length]; f_equal; lia.
    + reflexivity.
Qed.

Lemma length_states_after {conf positions} (rdk : RDKitConf conf positions)
    (angle_mesh : list (list pynum)) :
  forall c, length (states_after rdk c angle_mesh) = length angle_mesh.
Proof.
  induction angle_mesh as [|angles rest IH]; intros c; simpl;
    [|rewrite IH]; reflexivity.
Qed.

Lemma nth_error_states_after {conf positions}
    (rdk : RDKitConf conf positions) (angle_mesh : list (list pynum)) :
  forall c i angles,
    nth_error angle_mesh i = Some angles ->
    nth_error (states_after rdk c angle_mesh) i
    = Some (SetAllTorsionsDeg rdk (conf_after rdk c angle_mesh i) angles).
Proof.
  induction angle_mesh as [|a rest IH]; intros c [|i] angles Hi;
    try discriminate Hi; simpl in Hi |- *.
  - inversion Hi. reflexivity.
  - apply (IH _ _ _ Hi).
Qed.

(** X7.  On the store of a run, the cell that reports the colliding
    conformers meets no missing key; the number it prints is the number of
    tuples after which [HasCollidingAtoms] answered [True] when the run
    checked collisions, and 0 when it did not (a [None] counts as no
    collision); the total it prints is the length of the mesh. *)
Theorem colliding_report_of_run {conf positions}
    (rdk : RDKitConf conf positions) (nonempty : positions -> bool)
    (c : conf) (angle_mesh : list (list pynum))
    (torsions : option (list (list nat))) (on_the_fly_check : bool) :
  exists c' bookkeep,
    conformers_by_change_torsions rdk c angle_mesh [] torsions
      on_the_fly_check = inr (c', bookkeep) /\
    colliding_report nonempty bookkeep
    = inr (if on_the_fly_check
           then length (filter (HasCollidingAtoms rdk)
                          (states_after rdk c angle_mesh))
           else 0%nat,
           length angle_mesh) /\
    (length (filter (HasCollidingAtoms rdk) (states_after rdk c angle_mesh))
       <= length angle_mesh)%nat /\
    forall i angles,
      nth_error angle_mesh i = Some angles ->
      nth_error (states_after rdk c angle_mesh) i
      = Some (SetAllTorsionsDeg rdk (conf_after rdk c angle_mesh i) angles).
Proof.
  eexists. eexists. split.
  { apply conformers_by_change_torsions_empty. }
  split; [|split].
  - unfold colliding_report. rewrite count_colliding_entries. cbn [bind].
    rewrite length_entries. reflexivity.
  - rewrite <- (length_states_after rdk angle_mesh c). apply filter_length_le.
  - intros i angles Hi. apply nth_error_states_after. exact Hi.
Qed.

(** X8.  On the store of a run, [wrapper(i)] ends with [KeyError] for every
    [i], before it evaluates any energy: under a key below the length of the
    mesh the entry has no ["geom"], and there is no entry under another
    key. *)
Theorem wrapper_key_error {conf positions}
    (rdk : RDKitConf conf positions) (c : conf) (angle_mesh : list (list pynum))
    (torsions : option (list (list nat))) (on_the_fly_check : bool) :
  exists c' bookkeep,
    conformers_by_change_torsions rdk c angle_mesh [] torsions
      on_the_fly_check = inr (c', bookkeep) /\
    forall (T : Type) (rest : pyvalue positions -> T) (i : nat),
      wrapper rest bookkeep i = inl KeyError.
Proof.
  eexists. eexists. split.
  { apply conformers_by_change_torsions_empty. }
  intros T rest i. unfold wrapper, dict_getitem.
  destruct (nth_error angle_mesh i) as [angles|] eqn:Hi.
  - rewrite (dict_get_entries rdk on_the_fly_check _ c i angles Hi).
    reflexivity.
  - rewrite dict_get_None; [reflexivity|].
    rewrite dict_keys_entries, in_seq.
    apply nth_error_None in Hi. lia.
Qed.

(** ** The order of the mesh *)

Lemma StronglySorted_nth_error {A} (R : A -> A -> Prop) (l : list A) :
  StronglySorted R l ->
  forall i j a b, (i < j)%nat ->
    nth_error l i = Some a -> nth_error l j = Some b -> R a b.
Proof.
  induction 1 as [|x l _ IH Hall]; intros i j a b Hij Ha Hb.
  - destruct i; discriminate Ha.
  - destruct j as [|j]; [lia|]. simpl in Hb.
    destruct i as [|i]; simpl in Ha.
    + inversion Ha; subst. rewrite Forall_forall in Hall.
      apply Hall. apply (nth_error_In _ _ Hb).
    + apply (IH i j); [lia | assumption | assumption].
Qed.

Lemma nth_error_StronglySorted {A} (R : A -> A -> Prop) (l : list A) :
  (forall i j a b, (i < j)%nat ->
     nth_error l i = Some a -> nth_error l j = Some b -> R a b) ->
  StronglySorted R l.
Proof.
  induction l as [|x l IH]; intros H; constructor.
  - apply IH. intros i j a b Hij Ha Hb.
    apply (H (S i) (S j)); [lia | assumption | assumption].
  - apply Forall_forall. intros b Hb.
    apply In_nth_error in Hb. destruct Hb as [j Hj].
    apply (H 0%nat (S j)); [lia | reflexivity | assumption].
Qed.

Lemma StronglySorted_app {A} (R : A -> A -> Prop) (l1 l2 : list A) :
  StronglySorted R l1 -> StronglySorted R l2 ->
  (forall a b, In a l1 -> In b l2 -> R a b) ->
  StronglySorted R (l1 ++ l2).
Proof.
  induction 1 as [|x l1 _ IH Hall]; intros H2 Hcross; [assumption|].
  simpl. constructor.
  - apply IH; [assumption|]. intros a b Ha Hb.
    apply Hcross; [right|]; assumption.
  - apply Forall_app. split; [assumption|].
    apply Forall_forall. intros b Hb. apply Hcross; [left; reflexivity|].
    assumption.
Qed.

Lemma StronglySorted_map {A B} (R : A -> A -> Prop) (R' : B -> B -> Prop)
    (f : A -> B) (l : list A) :
  (forall a b, R a b -> R' (f a) (f b)) ->
  StronglySorted R l -> StronglySorted R' (map f l).
Proof.
  intros Hf. induction 1 as [|x l _ IH Hall]; simpl; constructor.
  - assumption.
  - apply Forall_map. revert Hall. apply Forall_impl. intros b. apply Hf.
Qed.

Lemma cartesian_lex_sorted (pools : list (list Z)) :
  Forall (StronglySorted Z.lt) pools ->
  StronglySorted lex_lt (cartesian pools).
Proof.
  induction 1 as [|pool rest Hpool _ IH]; simpl.
  - constructor; constructor.
  - induction Hpool as [|x pool _ IHpool Hall]; simpl; [constructor|].
    apply StronglySorted_app.
    + apply (StronglySorted_map lex_lt); [|assumption].
      intros s t Hst. simpl. right. split; [reflexivity | assumption].
    + assumption.
    + intros s t Hs Ht.
      apply in_map_iff in Hs. destruct Hs as (s' & <- & _).
      apply in_flat_map in Ht. destruct Ht as (y & Hy & Ht).
      apply in_map_iff in Ht. destruct Ht as (t' & <- & _).
      rewrite Forall_forall in Hall. simpl. left. apply Hall. assumption.
Qed.

(** X9.  When every schedule is strictly increasing, the mesh is enumerated
    in strictly increasing lexicographic order: a tuple that comes earlier
    is smaller at the first dimension where the two differ. *)
Theorem get_angle_mesh_lexicographic (angle_list : list (list Z)) :
  Forall strictly_increasing angle_list ->
  forall i j s t, (i < j)%nat ->
    nth_error (get_angle_mesh angle_list) i = Some s ->
    nth_error (get_angle_mesh angle_list) j = Some t ->
    lex_lt s t.
Proof.
  intros Hinc. unfold get_angle_mesh. rewrite product_cartesian.
  apply StronglySorted_nth_error. apply cartesian_lex_sorted.
  revert Hinc. apply Forall_impl. intros l Hl.
  apply nth_error_StronglySorted. exact Hl.
Qed.

Lemma get_angle_mesh_lexicographic_example :
  lex_lt [0; -5] [90; -5].
Proof.
  apply (get_angle_mesh_lexicographic [[0; 90]; [-5]]) with (i := 0%nat)
                                                            (j := 1%nat);
    [|lia | reflexivity | reflexivity].
  repeat constructor; intros [|[|i]] [|[|j]] a b Hij Ha Hb; simpl in Ha, Hb;
    try discriminate; try lia;
    try (destruct i; discriminate); try (destruct j; discriminate).
  inversion Ha; inversion Hb; lia.
Defined.

(** ** Missing keys *)

Lemma dict_get_in_keys {K V} `{Hashable K} (d : dict K V) (k : K) :
  In k (dict_keys d) -> exists v, dict_get d k = Some v.
Proof.
  induction d as [|[k0 v0] d IH]; simpl; intros Hk; [destruct Hk|].
  destruct (key_eqb k k0) eqn:E; [exists v0; reflexivity|].
  apply IH. destruct Hk as [->|Hk]; [|assumption].
  rewrite key_eqb_refl in E. discriminate E.
Qed.

Lemma count_colliding_ok {positions} (nonempty : positions -> bool)
    (values : list (entry positions)) :
  Forall (fun e => In "colliding_atoms"%string (dict_keys e)) values ->
  forall num,
    exists n, count_colliding nonempty values num = inr n /\
              (num <= n <= num + length values)%nat.
Proof.
  induction 1 as [|value rest Hkey _ IH]; intros num.
  - exists num. split; [reflexivity | simpl; lia].
  - apply dict_get_in_keys in Hkey. destruct Hkey as [v Hv].
    cbn [count_colliding]. unfold dict_getitem. rewrite Hv. cbn [bind ret].
    destruct (IH (if truthy nonempty v then S num else num)) as (n & Hn & Hb).
    exists n. split; [assumption|].
    destruct (truthy nonempty v); simpl; lia.
Qed.

Lemma count_colliding_key_error {positions} (nonempty : positions -> bool)
    (values : list (entry positions)) :
  Exists (fun e => ~ In "colliding_atoms"%string (dict_keys e)) values ->
  forall num, count_colliding nonempty values num = inl KeyError.
Proof.
  induction values as [|value rest IH]; intros Hex num.
  - inversion Hex.
  - cbn [count_colliding]. unfold dict_getitem.
    destruct (dict_get value "colliding_atoms"%string) as [v|] eqn:Hv;
      [|reflexivity].
    cbn [bind ret]. apply IH.
    inversion Hex as [? ? Hhead|? ? Htail]; subst; [|assumption].
    apply dict_get_None in Hhead. congruence.
Qed.

(** X10.  On any store, the cell that reports the colliding conformers
    prints a count that is at most the number of entries, and the number of
    entries, when every entry has the key ["colliding_atoms"]; it ends with
    [KeyError] when some entry does not have it. *)
Theorem colliding_report_any_store {positions}
    (nonempty : positions -> bool) (bookkeep : bookkeeping positions) :
  (Forall (fun e => In "colliding_atoms"%string (dict_keys e))
     (dict_values bookkeep) ->
   exists num,
     colliding_report nonempty bookkeep = inr (num, length bookkeep) /\
     (num <= length bookkeep)%nat) /\
  (Exists (fun e => ~ In "colliding_atoms"%string (dict_keys e))
     (dict_values bookkeep) ->
   colliding_report nonempty bookkeep = inl KeyError).
Proof.
  unfold colliding_report. split.
  - intros Hall.
    destruct (count_colliding_ok nonempty _ Hall 0%nat) as (n & Hn & Hb).
    exists n. rewrite Hn. split; [reflexivity|].
    unfold dict_values in Hb. rewrite length_map in Hb. lia.
  - intros Hex. rewrite count_colliding_key_error by assumption.
    reflexivity.
Qed.


(** ** Dimensions that numpy treats in 64 bits *)

Section PlainDimensions.

Variable numpy_other : pynum -> list pynum -> result (list pynum).

Lemma np_add_plain (r : pynum) (zs : list Z) :
  match r with PyInt z => in_int64 z = true | PyFloat _ => True end ->
  Forall (fun x => in_int64 x = true) zs ->
  exists a,
    np_add numpy_other r (map PyInt zs) = inr a /\ length a = length zs.
Proof.
  intros Hr Hall. destruct zs as [|x zs].
  - exists []. split; [|reflexivity]. unfold np_add. simpl.
    destruct r as [z|f]; simpl; [rewrite Hr|]; reflexivity.
  - destruct r as [z|f].
    + rewrite np_add_int64 by (assumption || discriminate).
      eexists. split; [reflexivity|]. rewrite !length_map. reflexivity.
    + unfold np_add, np_array.
      change (PyInt x :: map PyInt zs) with (map PyInt (x :: zs)).
      rewrite all_int64_map by assumption. cbn [map]. cbn [scalar_add].
      cbn [bind ret tolist]. eexists. split; [reflexivity|].
      simpl. rewrite !length_map. reflexivity.
Qed.

Lemma sample_dimension_plain (original_angles : list pynum) (ind : nat)
    (r : pynum) (s : sampling) :
  plain r s ->
  nth_error original_angles ind = Some r ->
  exists a,
    sample_dimension numpy_other original_angles ind s = inr a /\
    length a = samples_per_dimension s.
Proof.
  intros [Href Hs] Hr. destruct s as [n|f|l]; [| destruct Hs |].
  - destruct (Z.eq_dec n 0) as [->|Hn0].
    + rewrite (sample_dimension_zero numpy_other _ _ _ Hr).
      apply (np_add_plain r [0]); [assumption | repeat constructor].
    + rewrite (sample_dimension_step numpy_other _ _ _ _ Hn0 Hr).
      destruct (np_add_plain r
                  (map (fun k => Z.of_nat k * (360 / n))
                     (seq 0 (Z.to_nat n))) Href) as (a & Ha & Hlen).
      { apply Forall_forall. intros x Hx. apply in_map_iff in Hx.
        destruct Hx as (k & <- & Hk). apply in_seq in Hk.
        assert (Hn : 0 < n) by lia.
        destruct (step_multiple_bounds n k Hn ltac:(lia)) as [Hb Hlt].
        apply in_int64_spec. lia. }
      exists a. split; [assumption|].
      rewrite Hlen, length_map, length_seq. simpl.
      destruct (Z.eqb_spec n 0); [contradiction | reflexivity].
  - destruct Hs as [zs Hzs]. apply all_int64_Some in Hzs.
    destruct Hzs as [-> Hall].
    rewrite (sample_dimension_list numpy_other _ _ _ _ Hr).
    destruct (np_add_plain r zs Href Hall) as (a & Ha & Hlen).
    exists a. split; [assumption|]. simpl.
    rewrite Hlen, length_map. reflexivity.
Qed.


Lemma schedules_from_plain (original_angles : list pynum)
    (samplings : list sampling) :
  (forall i s r, nth_error samplings i = Some s ->
     nth_error original_angles i = Some r -> plain r s) ->
  (length samplings <= length original_angles)%nat ->
  exists angle_list,
    schedules_from numpy_other original_angles 0 samplings = inr angle_list /\
    length angle_list = length samplings /\
    forall i s a, nth_error samplings i = Some s ->
      nth_error angle_list i = Some a ->
      length a = samples_per_dimension s.
Proof.
  intros Hplain Hcov.
  assert (Hdim : forall i s, nth_error samplings i = Some s ->
            exists a,
              sample_dimension numpy_other original_angles i s = inr a /\
              length a = samples_per_dimension s).
  { intros i s Hs.
    assert (Hi : (i < length samplings)%nat)
      by (apply nth_error_Some; congruence).
    destruct (nth_error original_angles i) as [r|] eqn:Hr.
    2:{ apply nth_error_None in Hr. lia. }
    apply (sample_dimension_plain _ _ r); [|assumption].
    apply (Hplain i s r Hs Hr). }
  destruct (schedules_from_returns numpy_other original_angles samplings 0)
    as [angle_list Hrun].
  { intros i s Hs. destruct (Hdim i s Hs) as (a & Ha & _). exists a.
    exact Ha. }
  exists angle_list. split; [assumption|].
  destruct (schedules_from_inr numpy_other _ _ _ _ Hrun) as [Hlen Hnth].
  split; [assumption|]. intros i s a Hs Hi.
  destruct (Hnth i s Hs) as (a' & Ha' & Hi').
  destruct (Hdim i s Hs) as (a'' & Ha'' & Hlen'').
  simpl in Ha'. congruence.
Qed.


(** X2.  The schedules are separable: on two groups of dimensions put one
    after the other, each with as many reference angles as dimensions, the
    call ends as the call on the first group followed by the call on the
    second group ends, and returns their schedules one after the other. *)
Theorem get_separable_angle_list_app (s1 s2 : list sampling)
    (r1 r2 : list pynum) :
  length r1 = length s1 ->
  length r2 = length s2 ->
  get_separable_angle_list numpy_other (s1 ++ s2) (Some (r1 ++ r2))
  = (l1 <- get_separable_angle_list numpy_other s1 (Some r1) ;;
     l2 <- get_separable_angle_list numpy_other s2 (Some r2) ;;
     ret (l1 ++ l2)).
Proof.
  intros H1 H2. rewrite !get_separable_angle_list_schedules_from.
  rewrite !reference_angles_same_length
    by (rewrite ?length_app; lia).
  rewrite schedules_from_app.
  rewrite (schedules_from_ext numpy_other (r1 ++ r2) r1 s1 0 0).
  2:{ intros i Hi. simpl. apply nth_error_app1. lia. }
  rewrite (schedules_from_ext numpy_other (r1 ++ r2) r2 s2
             (0 + length s1) 0).
  2:{ intros i Hi. simpl. rewrite nth_error_app2 by lia.
      f_equal. lia. }
  reflexivity.
Qed.

(** X3.  For a step count [n > 0] on an integer reference angle [r] that
    fits in 64 bits, as [r + (n - 1) * floor(360 / n)] does, every value [v]
    of the schedule lies within one turn of the reference angle,
    [r <= v < r + 360]; the first is [r] and the last is
    [r + 360 - floor(360 / n) - 360 mod n], so that the gap that closes the
    turn is the step plus the remainder of the division. *)
Theorem step_count_schedule_within_turn (samplings : list sampling)
    (original_angles : option (list pynum)) (ind : nat) (n r : Z) :
  nth_error samplings ind = Some (SInt n) ->
  0 < n ->
  nth_error (reference_angles samplings original_angles) ind
    = Some (PyInt r) ->
  in_int64 r = true ->
  in_int64 (r + (n - 1) * (360 / n)) = true ->
  (forall i s, i <> ind -> nth_error samplings i = Some s ->
     exists a,
       sample_dimension numpy_other
         (reference_angles samplings original_angles) i s = inr a) ->
  exists angle_list angles,
    get_separable_angle_list numpy_other samplings original_angles
      = inr angle_list /\
    nth_error angle_list ind = Some (map PyInt angles) /\
    Z.of_nat (length angles) = n /\
    Forall (fun v => r <= v < r + 360) angles /\
    nth_error angles 0 = Some r /\
    nth_error angles (Z.to_nat (n - 1))
    = Some (r + 360 - 360 / n - 360 mod n).
Proof.
  intros Hs Hn Hr Hr64 Hmax Hothers.
  assert (H0 : fits (PyInt r) 0).
  { split; [assumption|]. rewrite Z.add_0_r. assumption. }
  assert (Hfit : fits (PyInt r) ((n - 1) * (360 / n)))
    by (split; assumption).
  pose proof (sample_dimension_step_shift numpy_other _ _ _ _ Hn Hr H0 Hfit)
    as Hdim.
  destruct (get_separable_angle_list_at numpy_other _ _ _ _ _ Hs Hdim Hothers)
    as (angle_list & Hrun & Hnth).
  exists angle_list.
  exists (map (fun k => r + Z.of_nat k * (360 / n)) (seq 0 (Z.to_nat n))).
  split; [assumption|]. split.
  { rewrite Hnth, map_map. reflexivity. }
  split; [rewrite length_map, length_seq; lia|].
  pose proof (Z.div_mod 360 n ltac:(lia)) as Hdm.
  split; [|split].
  - apply Forall_forall. intros v Hv. apply in_map_iff in Hv.
    destruct Hv as (k & <- & Hk). apply in_seq in Hk.
    destruct (step_multiple_bounds n k Hn ltac:(lia)) as [Hb Hlt]. lia.
  - rewrite nth_error_map_seq.
    destruct (Nat.ltb_spec 0 (Z.to_nat n)) as [_|Hge]; [|lia].
    f_equal. simpl. lia.
  - rewrite nth_error_map_seq.
    destruct (Nat.ltb_spec (Z.to_nat (n - 1)) (Z.to_nat n)) as [_|Hge];
      [|lia].
    f_equal. rewrite Z2Nat.id by lia. nia.
Qed.

(** X11.  Reference angles beyond the number of dimensions are ignored:
    with as many reference angles as dimensions followed by any others, the
    call ends as it ends without the others. *)
Theorem surplus_reference_angles_ignored (samplings : list sampling)
    (refs extra : list pynum) :
  length refs = length samplings ->
  get_separable_angle_list numpy_other samplings (Some (refs ++ extra))
  = get_separable_angle_list numpy_other samplings (Some refs).
Proof.
  intros Hlen. rewrite !get_separable_angle_list_schedules_from.
  rewrite (reference_angles_same_length samplings refs Hlen).
  destruct (refs ++ extra) as [|x l] eqn:E.
  - apply app_eq_nil in E. destruct E as [-> ->].
    destruct samplings; [reflexivity | discriminate Hlen].
  - rewrite reference_angles_Some by discriminate. rewrite <- E.
    apply schedules_from_ext. intros i Hi. simpl.
    apply nth_error_app1. lia.
Qed.

End PlainDimensions.


Lemma get_separable_angle_list_app_example :
  get_separable_angle_list numpy_unsupported
    ([SInt 2] ++ [SList [PyInt 5; PyInt 6]; SInt 0])
    (Some ([PyInt 10] ++ [PyInt 20; PyInt 30]))
  = (l1 <- get_separable_angle_list numpy_unsupported [SInt 2]
             (Some [PyInt 10]) ;;
     l2 <- get_separable_angle_list numpy_unsupported
             [SList [PyInt 5; PyInt 6]; SInt 0]
             (Some [PyInt 20; PyInt 30]) ;;
     ret (l1 ++ l2)).
Proof.
  apply (get_separable_angle_list_app numpy_unsupported [SInt 2]
           [SList [PyInt 5; PyInt 6]; SInt 0] [PyInt 10]
           [PyInt 20; PyInt 30]); reflexivity.
Defined.

Lemma step_count_schedule_within_turn_example :
  exists angle_list angles,
    get_separable_angle_list numpy_unsupported [SInt 7] (Some [PyInt 300])
      = inr angle_list /\
    nth_error angle_list 0 = Some (map PyInt angles) /\
    Z.of_nat (length angles) = 7 /\
    Forall (fun v => 300 <= v < 300 + 360) angles /\
    nth_error angles 0 = Some 300 /\
    nth_error angles (Z.to_nat (7 - 1))
    = Some (300 + 360 - 360 / 7 - 360 mod 7).
Proof.
  apply (step_count_schedule_within_turn numpy_unsupported [SInt 7]
           (Some [PyInt 300]) 0 7 300);
    [reflexivity | lia | reflexivity | reflexivity | reflexivity |].
  intros [|i] s Hi Hs; [contradiction | destruct i; discriminate Hs].
Defined.

Lemma surplus_reference_angles_ignored_example :
  get_separable_angle_list numpy_unsupported [SInt 2; SList [PyInt 1]]
    (Some ([PyInt 10; PyInt 20] ++ [PyInt 30; PyInt 40]))
  = get_separable_angle_list numpy_unsupported [SInt 2; SList [PyInt 1]]
      (Some [PyInt 10; PyInt 20]).
Proof.
  apply (surplus_reference_angles_ignored numpy_unsupported
           [SInt 2; SList [PyInt 1]] [PyInt 10; PyInt 20]
           [PyInt 30; PyInt 40]).
  reflexivity.
Defined.

(** ** The store of a whole generation *)

Lemma mesh_size_samples (angle_list : list (list pynum)) :
  forall samplings,
    length angle_list = length samplings ->
    (forall i s a, nth_error samplings i = Some s ->
       nth_error angle_list i = Some a ->
       length a = samples_per_dimension s) ->
    mesh_size angle_list
    = fold_right Nat.mul 1%nat (map samples_per_dimension samplings).
Proof.
  induction angle_list as [|a rest IH]; intros [|s samplings] Hlen Hnth;
    try discriminate Hlen; [reflexivity|].
  simpl. rewrite (Hnth 0%nat s a eq_refl eq_refl).
  rewrite (IH samplings); [reflexivity | simpl in Hlen; lia |].
  intros i s' a' Hs' Ha'. apply (Hnth (S i) s' a' Hs' Ha').
Qed.

(** X4.  When every dimension has a reference angle, the reference angles
    are floats or integers that fit in 64 bits and the samplings are integers
    or lists of integers that fit in 64 bits, the generation ends without an
    exception and leaves as many entries as the product of the numbers of
    angles the samplings ask for (a list asks for its length, a positive
    step count [n] for [n], the step count 0 for one and a negative one for
    none); the entries hold the tuples of the mesh of the schedules, in
    order. *)
Theorem generate_store_size {conf positions}
    (rdk : RDKitConf conf positions)
    (numpy_other : pynum -> list pynum -> result (list pynum)) (c : conf)
    (samplings : list sampling) (original_angles : option (list pynum))
    (torsions : option (list (list nat))) (on_the_fly_check : bool) :
  (forall i s r, nth_error samplings i = Some s ->
     nth_error (reference_angles samplings original_angles) i = Some r ->
     plain r s) ->
  (length samplings
     <= length (reference_angles samplings original_angles))%nat ->
  exists c' bookkeep angle_list,
    get_separable_angle_list numpy_other samplings original_angles
      = inr angle_list /\
    generate rdk numpy_other c samplings original_angles torsions
      on_the_fly_check = inr (c', bookkeep) /\
    length bookkeep
      = fold_right Nat.mul 1%nat (map samples_per_dimension samplings) /\
    map (fun e => dict_get e "angles"%string) (dict_values bookkeep)
      = map (fun angles => Some (PyTuple angles)) (get_angle_mesh angle_list).
Proof.
  intros Hplain Hcov.
  destruct (schedules_from_plain numpy_other _ _ Hplain Hcov)
    as (angle_list & Hrun & Hlen & Hnth).
  rewrite <- get_separable_angle_list_schedules_from in Hrun.
  unfold generate. rewrite Hrun. cbn [bind].
  rewrite conformers_by_change_torsions_empty.
  eexists. eexists. exists angle_list.
  split; [reflexivity|]. split; [reflexivity|]. split.
  - rewrite length_entries. unfold get_angle_mesh.
    rewrite product_cartesian, length_cartesian.
    apply mesh_size_samples; assumption.
  - apply angles_of_entries.
Qed.

Lemma generate_store_size_example :
  exists c' bookkeep angle_list,
    get_separable_angle_list numpy_unsupported
      [SInt 3; SInt 0; SList [PyInt 1; PyInt 2]] None = inr angle_list /\
    generate angles_conf numpy_unsupported []
      [SInt 3; SInt 0; SList [PyInt 1; PyInt 2]] None None true
      = inr (c', bookkeep) /\
    length bookkeep
      = fold_right Nat.mul 1%nat
          (map samples_per_dimension
             [SInt 3; SInt 0; SList [PyInt 1; PyInt 2]]) /\
    map (fun e => dict_get e "angles"%string) (dict_values bookkeep)
      = map (fun angles => Some (PyTuple angles)) (get_angle_mesh angle_list).
Proof.
  apply (generate_store_size angles_conf numpy_unsupported []
           [SInt 3; SInt 0; SList [PyInt 1; PyInt 2]] None None true).
  - intros [|[|[|i]]] s r Hs Hr; simpl in Hs, Hr;
      try (inversion Hs; inversion Hr; subst; split; exact I).
    + inversion Hs; inversion Hr; subst. split; [exact I|].
      exists [1; 2]. reflexivity.
    + destruct i; discriminate Hs.
  - simpl. lia.
Defined.

(** ** The examples of the source and of the design *)

(** The docstring of [get_separable_angle_list]; without reference angles
    the values are floats. *)
Example docstring_example :
  get_separable_angle_list numpy_unsupported
    [SList [PyInt 120; PyInt 240]; SInt 4; SInt 0] None
  = inr [map (fun z => PyFloat (float_of_int z)) [120; 240];
         map (fun z => PyFloat (float_of_int z)) [0; 90; 180; 270];
         [PyFloat (float_of_int 0)]].
Proof. vm_compute. reflexivity. Qed.

(** Samplings [[2, 2]] on reference angles [[0, 0]]: four mesh points, four
    entries. *)
Example two_by_two_example :
  (angles_list <- get_separable_angle_list numpy_unsupported
                    [SInt 2; SInt 2] (Some [PyInt 0; PyInt 0]) ;;
   ret (get_angle_mesh angles_list))
  = inr (map (map PyInt) [[0; 0]; [0; 180]; [180; 0]; [180; 180]]) /\
  (bookkeep <- store_of (generate angles_conf numpy_unsupported []
                           [SInt 2; SInt 2] (Some [PyInt 0; PyInt 0])
                           None false) ;;
   ret (dict_keys bookkeep))
  = inr [0; 1; 2; 3]%nat.
Proof. split; reflexivity. Qed.

(** A float step count: zero is "no change", another one fails in
    [range]. *)
Example float_step_count_example :
  get_separable_angle_list numpy_unsupported [SFloat float_zero]
    (Some [PyInt 7])
  = inr [[PyInt 7]] /\
  get_separable_angle_list numpy_unsupported [SFloat (float_of_int 2)]
    (Some [PyInt 7])
  = inl TypeError.
Proof. split; reflexivity. Qed.
